(** * adafruit_pcf8575: the PCF8575 16-bit I2C GPIO expander driver

    A shallow embedding of [adafruit_pcf8575.py]: the [PCF8575] register
    interface (two 2-byte buffers and an I2C device) and the per-pin
    [DigitalInOut] view, followed by the properties of the driver. *)

From Stdlib Require Import ZArith List Bool Lia.
From Stdlib.Strings Require Import Byte.
Import ListNotations.
Open Scope Z_scope.

(** ** Python exceptions and the state-and-exception monad

    A method either returns or raises; in both cases the mutations made so
    far to the objects stay. *)

Inductive exn : Type :=
| ValueError
| NotImplementedError
| AssertionError
| IndexError.

Inductive outcome (A : Type) : Type :=
| Return (a : A)
| Raise (e : exn).
Arguments Return {A} a.
Arguments Raise {A} e.

Definition M (S A : Type) : Type := S -> S * outcome A.

Definition ret {S A} (a : A) : M S A := fun s => (s, Return a).

Definition raise {S A} (e : exn) : M S A := fun s => (s, Raise e).

Definition bind {S A B} (m : M S A) (k : A -> M S B) : M S B :=
  fun s =>
    match m s with
    | (s', Return a) => k a s'
    | (s', Raise e) => (s', Raise e)
    end.

Definition lift {S A} (o : outcome A) : M S A := fun s => (s, o).

Definition gets {S A} (f : S -> A) : M S A := fun s => (s, Return (f s)).

Definition modify {S} (f : S -> S) : M S unit := fun s => (f s, Return tt).

Notation "x <- m ;; k" := (bind m (fun x => k))
  (at level 61, m at next level, right associativity).
Notation "m ;;; k" := (bind m (fun _ => k))
  (at level 61, right associativity).

(** ** Python integers

    [int] is unbounded: [Z] with [Z.land], [Z.lor], [Z.lnot], and the two
    shifts, which raise [ValueError] on a negative count. *)

Definition py_lshift (a n : Z) : outcome Z :=
  if n <? 0 then Raise ValueError else Return (Z.shiftl a n).

Definition py_rshift (a n : Z) : outcome Z :=
  if n <? 0 then Raise ValueError else Return (Z.shiftr a n).

(** ** bytearray

    A mutable sequence of bytes.  Reading an element gives an [int] in
    [0..255]; storing one checks the index, then the range of the value. *)

Definition bytearray : Type := list byte.

Definition byte_to_Z (b : byte) : Z := Z.of_N (Byte.to_N b).

Definition Z_to_byte (v : Z) : option byte :=
  if (0 <=? v) && (v <? 256) then Byte.of_N (Z.to_N v) else None.

Definition getitem (buf : bytearray) (i : nat) : outcome Z :=
  match nth_error buf i with
  | Some b => Return (byte_to_Z b)
  | None => Raise IndexError
  end.

Fixpoint replace_nth (buf : bytearray) (i : nat) (b : byte) : bytearray :=
  match buf, i with
  | [], _ => []
  | _ :: tl, O => b :: tl
  | hd :: tl, S j => hd :: replace_nth tl j b
  end.

Definition setitem (buf : bytearray) (i : nat) (v : Z) : outcome bytearray :=
  if (i <? length buf)%nat then
    match Z_to_byte v with
    | Some b => Return (replace_nth buf i b)
    | None => Raise ValueError
    end
  else Raise IndexError.

(** ** The I2C device (adafruit_bus_device.i2c_device.I2CDevice)

    The bus transport is outside the driver.  It is modelled by the history
    of the transactions with the chip (most recent first) and by the chip's
    answer to a read, a function of that history. *)

Inductive bus_event : Type :=
| BusWrite (data : list byte)
| BusRead (count : nat).

Record I2CDevice : Type := mkI2CDevice {
  device_address : Z;
  respond : list bus_event -> nat -> byte;
  trace : list bus_event
}.

Definition i2c_write (buf : bytearray) (dev : I2CDevice) : I2CDevice :=
  {| device_address := device_address dev;
     respond := respond dev;
     trace := BusWrite buf :: trace dev |}.

(** [readinto] fills the buffer it is given, whatever its length. *)
Definition i2c_readinto (buf : bytearray) (dev : I2CDevice)
  : I2CDevice * bytearray :=
  ({| device_address := device_address dev;
      respond := respond dev;
      trace := BusRead (length buf) :: trace dev |},
   map (respond dev (trace dev)) (seq 0 (length buf))).

(** ** class PCF8575 *)

Definition PCF8575_I2CADDR_DEFAULT : Z := 0x20.

Record PCF8575 : Type := mkPCF8575 {
  i2c_device : I2CDevice;
  _writebuf : bytearray;
  _readbuf : bytearray
}.

Definition set_i2c_device (d : I2CDevice) (self : PCF8575) : PCF8575 :=
  {| i2c_device := d; _writebuf := _writebuf self; _readbuf := _readbuf self |}.

Definition set_writebuf (b : bytearray) (self : PCF8575) : PCF8575 :=
  {| i2c_device := i2c_device self; _writebuf := b; _readbuf := _readbuf self |}.

Definition set_readbuf (b : bytearray) (self : PCF8575) : PCF8575 :=
  {| i2c_device := i2c_device self; _writebuf := _writebuf self; _readbuf := b |}.

(** [PCF8575.__init__]: [i2c_bus] is what answers on the bus. *)
Definition PCF8575_init (i2c_bus : list bus_event -> nat -> byte)
    (address : Z) : PCF8575 :=
  {| i2c_device := {| device_address := address;
                      respond := i2c_bus;
                      trace := [] |};
     _writebuf := [x00; x00];
     _readbuf := [x00; x00] |}.

(** [self._writebuf[i] = v] *)
Definition writebuf_setitem (i : nat) (v : Z) : M PCF8575 unit :=
  fun self =>
    match setitem (_writebuf self) i v with
    | Return b => (set_writebuf b self, Return tt)
    | Raise e => (self, Raise e)
    end.

(** [PCF8575.write_gpio] *)
Definition write_gpio (val : Z) : M PCF8575 unit :=
  writebuf_setitem 0 (Z.land val 0xFF) ;;;
  writebuf_setitem 1 (Z.land (Z.shiftr val 8) 0xFF) ;;;
  modify (fun self =>
            set_i2c_device (i2c_write (_writebuf self) (i2c_device self)) self).

(** [PCF8575.read_gpio] *)
Definition read_gpio : M PCF8575 Z :=
  modify (fun self =>
            let (dev, buf) := i2c_readinto (_readbuf self) (i2c_device self) in
            set_readbuf buf (set_i2c_device dev self)) ;;;
  lo <- (fun self => (self, getitem (_readbuf self) 0)) ;;
  hi <- (fun self => (self, getitem (_readbuf self) 1)) ;;
  ret (Z.lor lo (Z.shiftl hi 8)).

(** [PCF8575.write_pin] *)
Definition write_pin (pin : Z) (val : bool) : M PCF8575 unit :=
  lo <- (fun self => (self, getitem (_writebuf self) 0)) ;;
  hi <- (fun self => (self, getitem (_writebuf self) 1)) ;;
  let buff := Z.lor lo (Z.shiftl hi 8) in
  if val then
    bit <- lift (py_lshift 1 pin) ;;
    write_gpio (Z.lor buff bit)
  else
    bit <- lift (py_lshift 1 pin) ;;
    write_gpio (Z.land buff (Z.lnot bit)).

(** [PCF8575.read_pin] *)
Definition read_pin (pin : Z) : M PCF8575 bool :=
  v <- read_gpio ;;
  s <- lift (py_rshift v pin) ;;
  ret (negb (Z.land s 0x1 =? 0)).

(** ** digitalio enumerations and the values a caller may pass *)

Inductive Direction : Type := INPUT | OUTPUT.

Inductive Pull : Type := UP | DOWN.

Inductive pyobj : Type :=
| PyNone
| PyBool (b : bool)
| PyInt (z : Z)
| PyDirection (d : Direction)
| PyPull (p : Pull).

(** ** class DigitalInOut

    The object holds [_pin] and [_dir]; its [_pcf] reference is the
    [PCF8575] shared by all the pins, the second component of the state. *)

Record DigitalInOut : Type := mkDigitalInOut {
  _pin : Z;
  _dir : Direction
}.

Definition pin_state : Type := (DigitalInOut * PCF8575)%type.

(** [DigitalInOut.__init__]: called with the [PCF8575] it keeps a reference
    to; it stores its arguments and the initial direction. *)
Definition DigitalInOut_init (pin_number : Z) : M PCF8575 DigitalInOut :=
  ret {| _pin := pin_number; _dir := INPUT |}.

(** [PCF8575.get_pin] *)
Definition get_pin (pin : Z) : M PCF8575 DigitalInOut :=
  if (0 <=? pin) && (pin <=? 15) then DigitalInOut_init pin
  else raise AssertionError.

(** A call [self._pcf.m(...)] from a pin method. *)
Definition on_pcf {A} (m : M PCF8575 A) : M pin_state A :=
  fun st =>
    let (pcf', r) := m (snd st) in ((fst st, pcf'), r).

Definition set_dir (d : Direction) : M pin_state unit :=
  modify (fun st => ({| _pin := _pin (fst st); _dir := d |}, snd st)).

(** [DigitalInOut.value] (getter and setter) *)
Definition value_get : M pin_state bool :=
  pin <- gets (fun st => _pin (fst st)) ;;
  on_pcf (read_pin pin).

Definition value_set (val : bool) : M pin_state unit :=
  pin <- gets (fun st => _pin (fst st)) ;;
  on_pcf (write_pin pin val).

(** [DigitalInOut.direction] (getter and setter) *)
Definition direction_get : M pin_state Direction :=
  gets (fun st => _dir (fst st)).

Definition direction_set (val : pyobj) : M pin_state unit :=
  match val with
  | PyDirection INPUT =>
      pin <- gets (fun st => _pin (fst st)) ;;
      on_pcf (write_pin pin true) ;;;
      set_dir INPUT
  | PyDirection OUTPUT =>
      pin <- gets (fun st => _pin (fst st)) ;;
      on_pcf (write_pin pin false) ;;;
      set_dir OUTPUT
  | _ => raise ValueError
  end.

(** [DigitalInOut.pull] (getter and setter) *)
Definition pull_get : M pin_state Pull := ret UP.

Definition pull_set (val : pyobj) : M pin_state unit :=
  match val with
  | PyPull UP =>
      pin <- gets (fun st => _pin (fst st)) ;;
      on_pcf (write_pin pin true)
  | _ => raise NotImplementedError
  end.

(** [DigitalInOut.switch_to_output] *)
Definition switch_to_output (value : bool) : M pin_state unit :=
  direction_set (PyDirection OUTPUT) ;;;
  value_set value.

(** [DigitalInOut.switch_to_input]; [pull] defaults to [None]. *)
Definition switch_to_input (pull : pyobj) : M pin_state unit :=
  direction_set (PyDirection INPUT) ;;;
  pull_set pull.

(** ** Observations used by the properties *)

(** The 16-bit value a 2-byte buffer encodes, low byte first. *)
Definition decode (buf : bytearray) : Z :=
  match buf with
  | [lo; hi] => Z.lor (byte_to_Z lo) (Z.shiftl (byte_to_Z hi) 8)
  | _ => 0
  end.

(** The last commanded register value the driver keeps: [_writebuf]. *)
Definition cached (self : PCF8575) : Z := decode (_writebuf self).

(** The bus writes of a history, oldest first. *)
Fixpoint writes_of (t : list bus_event) : list (list byte) :=
  match t with
  | [] => []
  | BusWrite d :: t' => writes_of t' ++ [d]
  | BusRead _ :: t' => writes_of t'
  end.

Definition transmitted (self : PCF8575) : list (list byte) :=
  writes_of (trace (i2c_device self)).

(** The buffers keep the two bytes [__init__] gave them. *)
Definition wf (self : PCF8575) : bool :=
  (length (_writebuf self) =? 2)%nat && (length (_readbuf self) =? 2)%nat.

(** A simulated chip that echoes the bytes last written to it, and answers
    with all pins high before any write (the power-on state). *)
Fixpoint loopback (t : list bus_event) (k : nat) : byte :=
  match t with
  | [] => xff
  | BusWrite d :: _ => nth k d xff
  | BusRead _ :: t' => loopback t' k
  end.

(** The byte a store of an in-range [int] leaves in a buffer. *)
Definition byte_of (v : Z) : byte :=
  match Z_to_byte v with
  | Some b => b
  | None => x00
  end.

(** The two bytes [write_gpio] stores and sends for [val]. *)
Definition encode (val : Z) : bytearray :=
  [byte_of (Z.land val 0xFF); byte_of (Z.land (Z.shiftr val 8) 0xFF)].

(** The register value with bit [pin] forced to [val], as [write_pin]
    computes it before masking. *)
Definition with_bit (reg pin : Z) (val : bool) : Z :=
  if val then Z.lor reg (Z.shiftl 1 pin)
  else Z.land reg (Z.lnot (Z.shiftl 1 pin)).

(** The state [write_gpio] leaves: both bytes stored, then sent. *)
Definition after_write (val : Z) (self : PCF8575) : PCF8575 :=
  {| i2c_device := i2c_write (encode val) (i2c_device self);
     _writebuf := encode val;
     _readbuf := _readbuf self |}.

(** ** Sequences of register operations

    A caller's calls on one [PCF8575], run one after the other; a call that
    raises leaves the object as it was at the raise, and the caller goes
    on. *)

Inductive op : Type :=
| OpWriteGpio (val : Z)
| OpWritePin (pin : Z) (val : bool)
| OpReadGpio
| OpReadPin (pin : Z).

Definition run_op (o : op) (self : PCF8575) : PCF8575 :=
  match o with
  | OpWriteGpio val => fst (write_gpio val self)
  | OpWritePin pin val => fst (write_pin pin val self)
  | OpReadGpio => fst (read_gpio self)
  | OpReadPin pin => fst (read_pin pin self)
  end.

Definition run (ops : list op) (self : PCF8575) : PCF8575 :=
  fold_left (fun s o => run_op o s) ops self.

(** Calls within the register's domain: a 16-bit value, a pin in 0..15. *)
Definition op_valid (o : op) : bool :=
  match o with
  | OpWriteGpio val => (0 <=? val) && (val <? 65536)
  | OpWritePin pin _ => (0 <=? pin) && (pin <=? 15)
  | OpReadGpio => true
  | OpReadPin _ => true
  end.

(** The last commanded register value as the specification words it: a
    whole-register write replaces it, a pin write ORs the pin's bit in or
    ANDs it out, and reads leave it alone. *)
Definition layer (reg : Z) (o : op) : Z :=
  match o with
  | OpWriteGpio val => val
  | OpWritePin pin true => Z.lor reg (2 ^ pin)
  | OpWritePin pin false => Z.land reg (Z.lnot (2 ^ pin))
  | OpReadGpio => reg
  | OpReadPin _ => reg
  end.

Definition layered (reg : Z) (ops : list op) : Z := fold_left layer ops reg.

(** The same composition kept to the 16 bits of the register, for calls of
    any kind. *)
Definition layered16 (reg : Z) (ops : list op) : Z :=
  fold_left (fun r o => Z.land (layer r o) 0xFFFF) ops reg.

(** The state [read_gpio] leaves: one bus read into [_readbuf]. *)
Definition after_read (self : PCF8575) : PCF8575 :=
  {| i2c_device := fst (i2c_readinto (_readbuf self) (i2c_device self));
     _writebuf := _writebuf self;
     _readbuf := snd (i2c_readinto (_readbuf self) (i2c_device self)) |}.

(** Calls that decide bit [p] of the register: a whole-register write, or a
    pin write on [p] itself. *)
Definition touches (p : Z) (o : op) : bool :=
  match o with
  | OpWriteGpio _ => true
  | OpWritePin q _ => q =? p
  | OpReadGpio => false
  | OpReadPin _ => false
  end.

(** The bus reads of a history, as the number of bytes asked for, oldest
    first. *)
Fixpoint reads_of (t : list bus_event) : list nat :=
  match t with
  | [] => []
  | BusWrite _ :: t' => reads_of t'
  | BusRead n :: t' => reads_of t' ++ [n]
  end.

(** ** examples/pcf8575_read16inputs.py

    The program turns on the 16 pullups and then polls for ever; a button
    pulls its pin low.  [pressed_buttons] is the body of the [for] loop, as
    the button numbers it prints, in order; [poll] is one turn of the
    [while] loop, the delay left out; [read16inputs n] is the program cut
    after [n] turns, with what each turn printed. *)

Definition pressed_buttons (vals : Z) : list Z :=
  filter (fun b => Z.land vals (Z.shiftl 1 b) =? 0)
         (map Z.of_nat (seq 0 16)).

Definition poll : M PCF8575 (list Z) :=
  vals <- read_gpio ;;
  ret (pressed_buttons vals).

Fixpoint poll_loop (n : nat) : M PCF8575 (list (list Z)) :=
  match n with
  | O => ret []
  | S n' =>
      printed <- poll ;;
      rest <- poll_loop n' ;;
      ret (printed :: rest)
  end.

Definition read16inputs (n : nat) : M PCF8575 (list (list Z)) :=
  write_gpio 0xFFFF ;;;
  poll_loop n.

(** * Properties *)

(** ** Bytes and buffers *)

Lemma byte_to_Z_range (b : byte) : 0 <= byte_to_Z b < 256.
Proof.
  unfold byte_to_Z. pose proof (Byte.to_N_bounded b). lia.
Qed.

Lemma Z_to_byte_inv (v : Z) (b : byte) :
  Z_to_byte v = Some b -> byte_to_Z b = v.
Proof.
  unfold Z_to_byte, byte_to_Z.
  destruct ((0 <=? v) && (v <? 256)) eqn:E; [|discriminate].
  intros H. apply Byte.to_of_N in H. rewrite H.
  apply andb_true_iff in E. destruct E as [E _].
  apply Z.leb_le in E. now rewrite Z2N.id.
Qed.

Lemma Z_to_byte_byte_of (v : Z) :
  0 <= v < 256 -> Z_to_byte v = Some (byte_of v).
Proof.
  intros Hv. unfold byte_of.
  destruct (Z_to_byte v) eqn:E; [reflexivity|].
  unfold Z_to_byte in E.
  replace ((0 <=? v) && (v <? 256)) with true in E
    by (symmetry; apply andb_true_iff; split;
        [apply Z.leb_le | apply Z.ltb_lt]; lia).
  apply Byte.of_N_None_iff in E. lia.
Qed.

Lemma land_255_range (v : Z) : 0 <= Z.land v 0xFF < 256.
Proof.
  change 0xFF with (Z.ones 8). rewrite Z.land_ones by lia.
  change (2 ^ 8) with 256. apply Z.mod_pos_bound. lia.
Qed.

Lemma byte_of_land (v : Z) :
  byte_to_Z (byte_of (Z.land v 0xFF)) = Z.land v 0xFF.
Proof.
  apply Z_to_byte_inv, Z_to_byte_byte_of, land_255_range.
Qed.

Lemma byte_bits_high (b : byte) (n : Z) :
  8 <= n -> Z.testbit (byte_to_Z b) n = false.
Proof.
  intros Hn. pose proof (byte_to_Z_range b) as Hb.
  rewrite <- (Z.mod_small (byte_to_Z b) (2 ^ 8)) by (change (2 ^ 8) with 256; lia).
  apply Z.mod_pow2_bits_high. lia.
Qed.

Lemma testbit_255 (n : Z) : 0 <= n -> Z.testbit 0xFF n = (n <? 8).
Proof.
  intros Hn. change 0xFF with (Z.ones 8).
  apply Z.testbit_ones_nonneg; lia.
Qed.

Lemma testbit_65535 (n : Z) : 0 <= n -> Z.testbit 0xFFFF n = (n <? 16).
Proof.
  intros Hn. change 0xFFFF with (Z.ones 16).
  apply Z.testbit_ones_nonneg; lia.
Qed.

(** Bit [n] of a decoded buffer comes from the low byte below 8 and from
    the high byte from 8 to 15. *)
Lemma decode_bits (lo hi : byte) (n : Z) :
  0 <= n ->
  Z.testbit (decode [lo; hi]) n =
  if n <? 8 then Z.testbit (byte_to_Z lo) n
  else Z.testbit (byte_to_Z hi) (n - 8).
Proof.
  intros Hn. unfold decode.
  rewrite Z.lor_spec, Z.shiftl_spec by lia.
  destruct (n <? 8) eqn:E.
  - apply Z.ltb_lt in E. rewrite (Z.testbit_neg_r _ (n - 8)) by lia.
    apply orb_false_r.
  - apply Z.ltb_ge in E. now rewrite byte_bits_high by lia.
Qed.

Lemma decode_bits_high (buf : bytearray) (n : Z) :
  16 <= n -> Z.testbit (decode buf) n = false.
Proof.
  intros Hn.
  destruct buf as [|lo [|hi [|x tl]]]; try apply Z.testbit_0_l.
  rewrite decode_bits by lia.
  replace (n <? 8) with false by (symmetry; apply Z.ltb_ge; lia).
  apply byte_bits_high. lia.
Qed.

Lemma decode_encode (val : Z) : decode (encode val) = Z.land val 0xFFFF.
Proof.
  apply Z.bits_inj'. intros n Hn. unfold encode.
  rewrite decode_bits by lia. rewrite !byte_of_land.
  rewrite !Z.land_spec, testbit_65535 by lia.
  destruct (n <? 8) eqn:E.
  - apply Z.ltb_lt in E. rewrite testbit_255 by lia.
    replace (n <? 16) with true by (symmetry; apply Z.ltb_lt; lia).
    replace (n <? 8) with true by (symmetry; apply Z.ltb_lt; lia).
    reflexivity.
  - apply Z.ltb_ge in E.
    rewrite Z.shiftr_spec, testbit_255 by lia.
    replace (n - 8 + 8) with n by lia.
    f_equal. destruct (n <? 16) eqn:F.
    + apply Z.ltb_lt in F. apply Z.ltb_lt. lia.
    + apply Z.ltb_ge in F. apply Z.ltb_ge. lia.
Qed.

Lemma land_65535_mod (val : Z) : Z.land val 0xFFFF = val mod 65536.
Proof.
  change 0xFFFF with (Z.ones 16). now rewrite Z.land_ones by lia.
Qed.

Lemma decode_range (buf : bytearray) : 0 <= decode buf < 65536.
Proof.
  assert (H : decode buf = decode buf mod 65536).
  { rewrite <- land_65535_mod. apply Z.bits_inj'. intros n Hn.
    rewrite Z.land_spec, testbit_65535 by lia.
    destruct (n <? 16) eqn:E; [now rewrite andb_true_r|].
    apply Z.ltb_ge in E. rewrite decode_bits_high by lia. reflexivity. }
  rewrite H. apply Z.mod_pos_bound. lia.
Qed.

Lemma wf_buffers (self : PCF8575) :
  wf self = true ->
  exists a b c d, _writebuf self = [a; b] /\ _readbuf self = [c; d].
Proof.
  unfold wf. intros H. apply andb_true_iff in H. destruct H as [Hw Hr].
  apply Nat.eqb_eq in Hw, Hr.
  destruct (_writebuf self) as [|a [|b [|? ?]]]; try discriminate.
  destruct (_readbuf self) as [|c [|d [|? ?]]]; try discriminate.
  now exists a, b, c, d.
Qed.

(** ** What the register operations compute *)

Lemma write_gpio_eq (val : Z) (self : PCF8575) :
  wf self = true ->
  write_gpio val self = (after_write val self, Return tt).
Proof.
  intros Hwf. destruct (wf_buffers self Hwf) as (a & b & c & d & Hw & Hr).
  destruct self as [dev wb rb]. simpl in Hw, Hr. subst wb rb.
  unfold write_gpio, bind, writebuf_setitem, setitem, modify, after_write,
    encode. cbn [_writebuf length Nat.ltb Nat.leb].
  rewrite (Z_to_byte_byte_of _ (land_255_range val)).
  cbn [set_writebuf _writebuf i2c_device _readbuf replace_nth length
       Nat.ltb Nat.leb].
  rewrite (Z_to_byte_byte_of _ (land_255_range (Z.shiftr val 8))).
  reflexivity.
Qed.

Lemma write_pin_eq (pin : Z) (val : bool) (self : PCF8575) :
  wf self = true -> 0 <= pin ->
  write_pin pin val self =
  (after_write (with_bit (cached self) pin val) self, Return tt).
Proof.
  intros Hwf Hpin. rewrite <- write_gpio_eq by exact Hwf.
  destruct (wf_buffers self Hwf) as (a & b & c & d & Hw & Hr).
  unfold write_pin, bind, lift, py_lshift, cached, with_bit, getitem.
  rewrite Hw. cbn [nth_error decode].
  replace (pin <? 0) with false by (symmetry; apply Z.ltb_ge; lia).
  destruct val; reflexivity.
Qed.

Lemma write_pin_negative (pin : Z) (val : bool) (self : PCF8575) :
  wf self = true -> pin < 0 ->
  write_pin pin val self = (self, Raise ValueError).
Proof.
  intros Hwf Hpin.
  destruct (wf_buffers self Hwf) as (a & b & c & d & Hw & Hr).
  unfold write_pin, bind, lift, py_lshift, getitem.
  rewrite Hw. cbn [nth_error].
  replace (pin <? 0) with true by (symmetry; apply Z.ltb_lt; lia).
  destruct val; reflexivity.
Qed.

Lemma wf_after_write (val : Z) (self : PCF8575) :
  wf self = true -> wf (after_write val self) = true.
Proof.
  unfold wf, after_write, encode. simpl. intros H.
  apply andb_true_iff in H. now destruct H as [_ ->].
Qed.

Lemma cached_after_write (val : Z) (self : PCF8575) :
  cached (after_write val self) = Z.land val 0xFFFF.
Proof. unfold cached, after_write. simpl _writebuf. apply decode_encode. Qed.

Lemma transmitted_after_write (val : Z) (self : PCF8575) :
  transmitted (after_write val self) = transmitted self ++ [encode val].
Proof. reflexivity. Qed.

(** Reading does not touch [_writebuf] and sends nothing. *)
Lemma read_gpio_frame (self : PCF8575) :
  _writebuf (fst (read_gpio self)) = _writebuf self /\
  transmitted (fst (read_gpio self)) = transmitted self.
Proof.
  unfold read_gpio, bind, modify, ret, getitem, i2c_readinto.
  cbn [set_readbuf set_i2c_device _readbuf _writebuf i2c_device].
  repeat match goal with
         | |- context [nth_error ?l ?i] => destruct (nth_error l i)
         end; split; reflexivity.
Qed.

Lemma read_pin_frame (pin : Z) (self : PCF8575) :
  _writebuf (fst (read_pin pin self)) = _writebuf self /\
  transmitted (fst (read_pin pin self)) = transmitted self.
Proof.
  unfold read_pin, bind.
  pose proof (read_gpio_frame self) as H.
  destruct (read_gpio self) as [s' [v|e]]; simpl in H |- *; [|exact H].
  unfold lift, py_rshift, ret. destruct (pin <? 0); exact H.
Qed.

Lemma wf_read_gpio (self : PCF8575) :
  wf self = true -> wf (fst (read_gpio self)) = true.
Proof.
  intros Hwf. destruct (wf_buffers self Hwf) as (a & b & c & d & Hw & Hr).
  unfold wf. rewrite (proj1 (read_gpio_frame self)), Hw.
  unfold read_gpio, bind, modify, ret, getitem. simpl.
  rewrite Hr. reflexivity.
Qed.

(** ** Bits of [with_bit] *)

Lemma with_bit_same (reg pin : Z) (val : bool) :
  0 <= pin -> Z.testbit (with_bit reg pin val) pin = val.
Proof.
  intros Hp. unfold with_bit. rewrite Z.shiftl_1_l.
  destruct val.
  - rewrite Z.lor_spec, Z.pow2_bits_true by lia. apply orb_true_r.
  - rewrite Z.land_spec, Z.lnot_spec, Z.pow2_bits_true by lia.
    apply andb_false_r.
Qed.

Lemma with_bit_other (reg pin : Z) (val : bool) (n : Z) :
  0 <= pin -> 0 <= n -> n <> pin ->
  Z.testbit (with_bit reg pin val) n = Z.testbit reg n.
Proof.
  intros Hp Hn Hne. unfold with_bit. rewrite Z.shiftl_1_l.
  destruct val.
  - rewrite Z.lor_spec, Z.pow2_bits_false by lia. apply orb_false_r.
  - rewrite Z.land_spec, Z.lnot_spec, Z.pow2_bits_false by lia.
    apply andb_true_r.
Qed.

Lemma bits_high_of_range (reg n : Z) :
  0 <= reg < 65536 -> 16 <= n -> Z.testbit reg n = false.
Proof.
  intros Hr Hn.
  rewrite <- (Z.mod_small reg (2 ^ 16)) by (change (2 ^ 16) with 65536; lia).
  apply Z.mod_pow2_bits_high. lia.
Qed.

Lemma land_65535_small (reg : Z) :
  0 <= reg < 65536 -> Z.land reg 0xFFFF = reg.
Proof. intros H. rewrite land_65535_mod. now apply Z.mod_small. Qed.

(** Inside the register, the mask of [write_gpio] changes nothing. *)
Lemma with_bit_in_register (reg pin : Z) (val : bool) :
  0 <= reg < 65536 -> 0 <= pin <= 15 ->
  Z.land (with_bit reg pin val) 0xFFFF = with_bit reg pin val.
Proof.
  intros Hr Hp. apply Z.bits_inj'. intros n Hn.
  rewrite Z.land_spec, testbit_65535 by lia.
  destruct (n <? 16) eqn:E; [apply andb_true_r|].
  apply Z.ltb_ge in E. rewrite andb_false_r.
  rewrite with_bit_other by lia. symmetry. now apply bits_high_of_range.
Qed.

(** A pin past the register only reaches bits the mask drops. *)
Lemma with_bit_outside_register (reg pin : Z) (val : bool) :
  0 <= reg < 65536 -> 16 <= pin ->
  Z.land (with_bit reg pin val) 0xFFFF = reg.
Proof.
  intros Hr Hp. apply Z.bits_inj'. intros n Hn.
  rewrite Z.land_spec, testbit_65535 by lia.
  destruct (n <? 16) eqn:E.
  - apply Z.ltb_lt in E. rewrite andb_true_r. apply with_bit_other; lia.
  - apply Z.ltb_ge in E. rewrite andb_false_r. symmetry.
    now apply bits_high_of_range.
Qed.

Lemma cached_range (self : PCF8575) : 0 <= cached self < 65536.
Proof. apply decode_range. Qed.

Lemma wf_init (i2c_bus : list bus_event -> nat -> byte) (address : Z) :
  wf (PCF8575_init i2c_bus address) = true.
Proof. reflexivity. Qed.

(** ** The register interface *)

(** C1 (as the code has it): [__init__] fills [_writebuf] with zeros, so the
    cached register value starts at 0x0000, and the first [write_pin p v]
    on a pin 0..15 returns after one bus write of 0x0000 with bit [p] set
    to [v]: the single bit [2^p] when [v] is true, zero otherwise. *)
Theorem first_write_pin_from_zero
    (i2c_bus : list bus_event -> nat -> byte) (address p : Z) (v : bool) :
  0 <= p <= 15 ->
  cached (PCF8575_init i2c_bus address) = 0 /\
  exists self',
    write_pin p v (PCF8575_init i2c_bus address) = (self', Return tt) /\
    transmitted self' = [encode (with_bit 0 p v)] /\
    decode (encode (with_bit 0 p v)) = (if v then 2 ^ p else 0) /\
    cached self' = (if v then 2 ^ p else 0).
Proof.
  intros Hp. split; [reflexivity|].
  assert (Hbit : Z.land (with_bit 0 p v) 0xFFFF = if v then 2 ^ p else 0).
  { rewrite with_bit_in_register by lia.
    unfold with_bit. rewrite Z.shiftl_1_l. destruct v.
    - apply Z.lor_0_l.
    - apply Z.land_0_l. }
  eexists. split.
  - rewrite write_pin_eq by (try apply wf_init; lia). reflexivity.
  - change (cached (PCF8575_init i2c_bus address)) with 0.
    rewrite cached_after_write, decode_encode, Hbit.
    repeat split; reflexivity.
Qed.

Lemma first_write_pin_from_zero_witness :
  0 <= 3 <= 15 /\
  cached (PCF8575_init loopback PCF8575_I2CADDR_DEFAULT) = 0 /\
  exists self',
    write_pin 3 true (PCF8575_init loopback PCF8575_I2CADDR_DEFAULT)
    = (self', Return tt) /\
    transmitted self' = [encode (with_bit 0 3 true)] /\
    decode (encode (with_bit 0 3 true)) = 2 ^ 3 /\
    cached self' = 2 ^ 3.
Proof.
  split; [lia|].
  apply (first_write_pin_from_zero loopback PCF8575_I2CADDR_DEFAULT 3 true).
  lia.
Defined.

(** C1 (as stated) fails: after construction the cached value is not 0xFFFF,
    and a first [write_pin 3 True] sends the bytes 08 00, not the encoding
    of 0xFFFF with bit 3 set. *)
Lemma first_write_pin_not_all_ones :
  cached (PCF8575_init loopback PCF8575_I2CADDR_DEFAULT) <> 0xFFFF /\
  transmitted
    (fst (write_pin 3 true (PCF8575_init loopback PCF8575_I2CADDR_DEFAULT)))
  = [[x08; x00]] /\
  [[x08; x00]] <> [encode (with_bit 0xFFFF 3 true)].
Proof.
  split; [|split].
  - vm_compute. discriminate.
  - vm_compute. reflexivity.
  - vm_compute. discriminate.
Qed.

(** C2: for a pin [i] in 0..15, a level [v] and any cached register value,
    [write_pin i v] returns after sending one register value, the new
    content of [_writebuf]; its bit [i] is [v] and every other bit is the
    bit of the previously cached value.  Reading a pin's value leaves
    [_writebuf] as it was and sends nothing. *)
Theorem write_pin_no_crosstalk (self : PCF8575) (i : Z) (v : bool) :
  wf self = true -> 0 <= i <= 15 ->
  (exists self',
     write_pin i v self = (self', Return tt) /\
     transmitted self' = transmitted self ++ [_writebuf self'] /\
     Z.testbit (decode (_writebuf self')) i = v /\
     (forall j, 0 <= j -> j <> i ->
        Z.testbit (decode (_writebuf self')) j = Z.testbit (cached self) j)) /\
  (forall d : DigitalInOut,
     _writebuf (snd (fst (value_get (d, self)))) = _writebuf self /\
     transmitted (snd (fst (value_get (d, self)))) = transmitted self).
Proof.
  intros Hwf Hi. split.
  - eexists. split; [apply write_pin_eq; [exact Hwf | lia]|].
    split; [reflexivity|].
    cbn [after_write _writebuf].
    rewrite decode_encode.
    rewrite with_bit_in_register by (try apply cached_range; lia).
    split; [apply with_bit_same; lia|].
    intros j Hj Hne. apply with_bit_other; lia.
  - intros d. unfold value_get, bind, gets, on_pcf. cbn [fst snd].
    pose proof (read_pin_frame (_pin d) self) as H.
    destruct (read_pin (_pin d) self) as [s' r]. exact H.
Qed.

Lemma write_pin_no_crosstalk_witness :
  wf (PCF8575_init loopback PCF8575_I2CADDR_DEFAULT) = true /\
  0 <= 5 <= 15 /\
  (exists self',
     write_pin 5 true (PCF8575_init loopback PCF8575_I2CADDR_DEFAULT)
     = (self', Return tt) /\
     transmitted self'
     = transmitted (PCF8575_init loopback PCF8575_I2CADDR_DEFAULT)
       ++ [_writebuf self'] /\
     Z.testbit (decode (_writebuf self')) 5 = true /\
     (forall j, 0 <= j -> j <> 5 ->
        Z.testbit (decode (_writebuf self')) j
        = Z.testbit
            (cached (PCF8575_init loopback PCF8575_I2CADDR_DEFAULT)) j)).
Proof.
  split; [reflexivity|]. split; [lia|].
  apply (write_pin_no_crosstalk
           (PCF8575_init loopback PCF8575_I2CADDR_DEFAULT) 5 true);
    [reflexivity | lia].
Defined.

(** C10: for every integer [val], also negative or wider than 16 bits,
    [write_gpio val] stores the bytes [val & 0xFF] and [(val >> 8) & 0xFF]
    and sends them: the register value sent is [val mod 2^16].  Hence
    [write_pin] on a pin index of 16 or more sends the previously cached
    value again. *)
Theorem write_gpio_sends_low_16_bits (self : PCF8575) (val : Z) :
  wf self = true ->
  (exists self',
     write_gpio val self = (self', Return tt) /\
     transmitted self' = transmitted self ++ [_writebuf self'] /\
     map byte_to_Z (_writebuf self')
     = [Z.land val 0xFF; Z.land (Z.shiftr val 8) 0xFF] /\
     decode (_writebuf self') = val mod 2 ^ 16) /\
  (forall pin v, 16 <= pin ->
     exists self',
       write_pin pin v self = (self', Return tt) /\
       transmitted self' = transmitted self ++ [_writebuf self'] /\
       decode (_writebuf self') = cached self).
Proof.
  intros Hwf. split.
  - eexists. split; [apply write_gpio_eq; exact Hwf|].
    split; [reflexivity|]. cbn [after_write _writebuf]. split.
    + unfold encode. cbn [map]. now rewrite !byte_of_land.
    + rewrite decode_encode. apply land_65535_mod.
  - intros pin v Hpin. eexists.
    split; [apply write_pin_eq; [exact Hwf | lia]|].
    split; [reflexivity|]. cbn [after_write _writebuf].
    rewrite decode_encode.
    apply with_bit_outside_register; [apply cached_range | exact Hpin].
Qed.

Lemma write_gpio_sends_low_16_bits_witness :
  wf (PCF8575_init loopback PCF8575_I2CADDR_DEFAULT) = true /\
  (exists self',
     write_gpio 0x12345 (PCF8575_init loopback PCF8575_I2CADDR_DEFAULT)
     = (self', Return tt) /\
     transmitted self'
     = transmitted (PCF8575_init loopback PCF8575_I2CADDR_DEFAULT)
       ++ [_writebuf self'] /\
     map byte_to_Z (_writebuf self')
     = [Z.land 0x12345 0xFF; Z.land (Z.shiftr 0x12345 8) 0xFF] /\
     decode (_writebuf self') = 0x12345 mod 2 ^ 16).
Proof.
  split; [reflexivity|].
  apply (write_gpio_sends_low_16_bits
           (PCF8575_init loopback PCF8575_I2CADDR_DEFAULT) 0x12345).
  reflexivity.
Defined.

(** What [read_gpio] does on a well-formed object: one bus read fills
    [_readbuf] with the chip's two bytes, which are composed low byte
    first. *)
Lemma read_gpio_eq (self : PCF8575) :
  wf self = true ->
  exists self',
    read_gpio self = (self', Return (decode (_readbuf self'))) /\
    _readbuf self'
    = [respond (i2c_device self) (trace (i2c_device self)) 0%nat;
       respond (i2c_device self) (trace (i2c_device self)) 1%nat] /\
    _writebuf self' = _writebuf self.
Proof.
  intros Hwf. destruct (wf_buffers self Hwf) as (a & b & c & d & Hw & Hr).
  destruct self as [dev wb rb]. simpl in Hw, Hr. subst wb rb.
  exists {| i2c_device :=
              {| device_address := device_address dev;
                 respond := respond dev;
                 trace := BusRead 2 :: trace dev |};
            _writebuf := [a; b];
            _readbuf := [respond dev (trace dev) 0%nat;
                         respond dev (trace dev) 1%nat] |}.
  split; [|split]; reflexivity.
Qed.

(** C5: against the echoing chip, for every 16-bit [v], [write_gpio v]
    followed by [read_gpio] returns exactly [v].  The bytes on the wire are
    [v & 0xFF] then [(v >> 8) & 0xFF], and the read composes the two bytes
    it receives in the same order. *)
Theorem write_read_roundtrip (self : PCF8575) (v : Z) :
  wf self = true ->
  respond (i2c_device self) = loopback ->
  0 <= v < 65536 ->
  exists s1 s2,
    write_gpio v self = (s1, Return tt) /\
    read_gpio s1 = (s2, Return v) /\
    transmitted s1 = transmitted self ++ [_writebuf s1] /\
    map byte_to_Z (_writebuf s1) = [Z.land v 0xFF; Z.land (Z.shiftr v 8) 0xFF] /\
    _readbuf s2 = _writebuf s1 /\
    decode (_readbuf s2) = v.
Proof.
  intros Hwf Hdev Hv.
  destruct (read_gpio_eq (after_write v self) (wf_after_write v self Hwf))
    as (s2 & Hread & Hbuf & _).
  assert (Hecho : _readbuf s2 = encode v).
  { rewrite Hbuf. cbn [after_write i2c_device i2c_write respond trace].
    rewrite Hdev. reflexivity. }
  assert (Hdec : decode (_readbuf s2) = v).
  { rewrite Hecho, decode_encode. now apply land_65535_small. }
  exists (after_write v self), s2.
  split; [now apply write_gpio_eq|].
  split; [now rewrite Hread, Hdec|].
  split; [reflexivity|].
  split; [unfold after_write, encode; cbn [_writebuf map];
          now rewrite !byte_of_land|].
  split; [exact Hecho | exact Hdec].
Qed.

Lemma write_read_roundtrip_witness :
  wf (PCF8575_init loopback PCF8575_I2CADDR_DEFAULT) = true /\
  respond (i2c_device (PCF8575_init loopback PCF8575_I2CADDR_DEFAULT))
  = loopback /\
  0 <= 0xBEEF < 65536 /\
  exists s1 s2,
    write_gpio 0xBEEF (PCF8575_init loopback PCF8575_I2CADDR_DEFAULT)
    = (s1, Return tt) /\
    read_gpio s1 = (s2, Return 0xBEEF) /\
    transmitted s1
    = transmitted (PCF8575_init loopback PCF8575_I2CADDR_DEFAULT)
      ++ [_writebuf s1] /\
    map byte_to_Z (_writebuf s1)
    = [Z.land 0xBEEF 0xFF; Z.land (Z.shiftr 0xBEEF 8) 0xFF] /\
    _readbuf s2 = _writebuf s1 /\
    decode (_readbuf s2) = 0xBEEF.
Proof.
  split; [reflexivity|]. split; [reflexivity|]. split; [lia|].
  apply (write_read_roundtrip
           (PCF8575_init loopback PCF8575_I2CADDR_DEFAULT) 0xBEEF);
    [reflexivity | reflexivity | lia].
Defined.

(** ** Sequences of operations *)

Lemma wf_run_op (o : op) (self : PCF8575) :
  wf self = true -> wf (run_op o self) = true.
Proof.
  intros Hwf. destruct o as [val|pin val| |pin]; cbn [run_op].
  - rewrite write_gpio_eq by exact Hwf. now apply wf_after_write.
  - destruct (Z_lt_le_dec pin 0) as [Hneg|Hpos].
    + now rewrite write_pin_negative.
    + rewrite write_pin_eq by assumption. now apply wf_after_write.
  - now apply wf_read_gpio.
  - unfold read_pin, bind.
    pose proof (wf_read_gpio self Hwf) as H.
    destruct (read_gpio self) as [s' [v|e]]; cbn [fst] in H |- *;
      [|exact H].
    unfold lift, py_rshift, ret. now destruct (pin <? 0).
Qed.

Lemma with_bit_layer (reg pin : Z) (val : bool) :
  with_bit reg pin val = layer reg (OpWritePin pin val).
Proof. unfold with_bit, layer. now rewrite Z.shiftl_1_l. Qed.

Lemma cached_run_op (o : op) (self : PCF8575) :
  wf self = true -> op_valid o = true ->
  cached (run_op o self) = layer (cached self) o.
Proof.
  intros Hwf Hv. destruct o as [val|pin val| |pin]; cbn [run_op].
  - cbn [op_valid] in Hv. apply andb_true_iff in Hv. destruct Hv as [H0 H1].
    apply Z.leb_le in H0. apply Z.ltb_lt in H1.
    rewrite write_gpio_eq by exact Hwf. cbn [fst].
    rewrite cached_after_write. cbn [layer]. apply land_65535_small. lia.
  - cbn [op_valid] in Hv. apply andb_true_iff in Hv. destruct Hv as [H0 H1].
    apply Z.leb_le in H0, H1.
    rewrite write_pin_eq by assumption. cbn [fst].
    rewrite cached_after_write, with_bit_in_register
      by (try apply cached_range; lia).
    apply with_bit_layer.
  - unfold cached. now rewrite (proj1 (read_gpio_frame self)).
  - unfold cached. now rewrite (proj1 (read_pin_frame pin self)).
Qed.

Lemma wf_run (ops : list op) (self : PCF8575) :
  wf self = true -> wf (run ops self) = true.
Proof.
  revert self. unfold run.
  induction ops as [|o ops IH]; intros self Hwf; [exact Hwf|].
  cbn [fold_left]. apply IH. now apply wf_run_op.
Qed.

Lemma cached_run_op_any (o : op) (self : PCF8575) :
  wf self = true ->
  cached (run_op o self) = Z.land (layer (cached self) o) 0xFFFF.
Proof.
  intros Hwf. pose proof (cached_range self) as Hc.
  destruct o as [val|pin val| |pin]; cbn [run_op].
  - rewrite write_gpio_eq by exact Hwf. apply cached_after_write.
  - destruct (Z_lt_le_dec pin 0) as [Hneg|Hpos].
    + rewrite write_pin_negative by assumption. cbn [fst layer].
      rewrite Z.pow_neg_r by exact Hneg.
      destruct val.
      * rewrite Z.lor_0_r. symmetry. now apply land_65535_small.
      * change (Z.lnot 0) with (-1). rewrite Z.land_m1_r.
        symmetry. now apply land_65535_small.
    + rewrite write_pin_eq by assumption. cbn [fst].
      rewrite cached_after_write. now rewrite with_bit_layer.
  - cbn [layer]. rewrite land_65535_small by exact Hc.
    unfold cached. now rewrite (proj1 (read_gpio_frame self)).
  - cbn [layer]. rewrite land_65535_small by exact Hc.
    unfold cached. now rewrite (proj1 (read_pin_frame pin self)).
Qed.

(** C6: from any state of the object, after any sequence of calls, the
    cached register value is the composition of the calls kept to 16 bits:
    each [write_pin] ORs or ANDs its bit into the value, starting again
    from every [write_gpio] value.  For calls within the register's domain
    this is exactly the composition the specification describes.
    [read_gpio] and [read_pin] leave [_writebuf] as it was, whatever the
    chip answers. *)
Theorem cache_only_coherency (ops : list op) (self : PCF8575) :
  wf self = true ->
  cached (run ops self) = layered16 (cached self) ops /\
  (forallb op_valid ops = true ->
   cached (run ops self) = layered (cached self) ops) /\
  _writebuf (fst (read_gpio self)) = _writebuf self /\
  (forall pin, _writebuf (fst (read_pin pin self)) = _writebuf self).
Proof.
  intros Hwf. split; [|split; [|split]].
  - revert self Hwf. unfold run, layered16.
    induction ops as [|o ops IH]; intros self Hwf; [reflexivity|].
    cbn [fold_left].
    rewrite IH by now apply wf_run_op.
    now rewrite cached_run_op_any.
  - revert self Hwf. unfold run, layered.
    induction ops as [|o ops IH]; intros self Hwf Hops; [reflexivity|].
    cbn [forallb] in Hops. apply andb_true_iff in Hops.
    destruct Hops as [Ho Hops]. cbn [fold_left].
    rewrite IH by (try apply wf_run_op; assumption).
    now rewrite cached_run_op.
  - apply read_gpio_frame.
  - intros pin. apply read_pin_frame.
Qed.

Lemma cache_only_coherency_witness :
  wf (PCF8575_init loopback PCF8575_I2CADDR_DEFAULT) = true /\
  forallb op_valid
    [OpWriteGpio 0xFFFF; OpWritePin 3 false; OpReadPin 3; OpWritePin 9 false;
     OpReadGpio; OpWritePin 3 true] = true /\
  cached
    (run [OpWriteGpio 0xFFFF; OpWritePin 3 false; OpReadPin 3;
          OpWritePin 9 false; OpReadGpio; OpWritePin 3 true]
       (PCF8575_init loopback PCF8575_I2CADDR_DEFAULT))
  = layered (cached (PCF8575_init loopback PCF8575_I2CADDR_DEFAULT))
      [OpWriteGpio 0xFFFF; OpWritePin 3 false; OpReadPin 3;
       OpWritePin 9 false; OpReadGpio; OpWritePin 3 true].
Proof.
  split; [reflexivity|]. split; [reflexivity|].
  apply (proj1 (proj2 (cache_only_coherency
           [OpWriteGpio 0xFFFF; OpWritePin 3 false; OpReadPin 3;
            OpWritePin 9 false; OpReadGpio; OpWritePin 3 true]
           (PCF8575_init loopback PCF8575_I2CADDR_DEFAULT)
           eq_refl))).
  reflexivity.
Defined.

(** ** The pin view *)

Lemma on_pcf_write_pin (d : DigitalInOut) (self : PCF8575) (val : bool) :
  wf self = true -> 0 <= _pin d ->
  on_pcf (write_pin (_pin d) val) (d, self)
  = ((d, after_write (with_bit (cached self) (_pin d) val) self), Return tt).
Proof.
  intros Hwf Hp. unfold on_pcf. cbn [fst snd].
  now rewrite write_pin_eq.
Qed.

Lemma direction_set_eq (d : DigitalInOut) (self : PCF8575) (dir : Direction) :
  wf self = true -> 0 <= _pin d ->
  direction_set (PyDirection dir) (d, self)
  = (({| _pin := _pin d; _dir := dir |},
      after_write
        (with_bit (cached self) (_pin d)
           match dir with INPUT => true | OUTPUT => false end) self),
     Return tt).
Proof.
  intros Hwf Hp.
  destruct dir; unfold direction_set, bind, gets, set_dir, modify;
    cbn [fst snd]; rewrite on_pcf_write_pin by assumption; reflexivity.
Qed.

Lemma value_set_eq (d : DigitalInOut) (self : PCF8575) (val : bool) :
  wf self = true -> 0 <= _pin d ->
  value_set val (d, self)
  = ((d, after_write (with_bit (cached self) (_pin d) val) self), Return tt).
Proof.
  intros Hwf Hp. unfold value_set, bind, gets. cbn [fst snd].
  now apply on_pcf_write_pin.
Qed.

(** C3: on a pin 0..15, [switch_to_input] with [pull] left at its default
    [None] sets the direction tag to INPUT and sends the register with the
    pin's bit set, and then raises [NotImplementedError] from the pull
    setter: the call does not succeed. *)
Theorem switch_to_input_default_raises (d : DigitalInOut) (self : PCF8575) :
  wf self = true -> 0 <= _pin d <= 15 ->
  switch_to_input PyNone (d, self)
  = (({| _pin := _pin d; _dir := INPUT |},
      after_write (with_bit (cached self) (_pin d) true) self),
     Raise NotImplementedError).
Proof.
  intros Hwf Hp. unfold switch_to_input, bind.
  rewrite direction_set_eq by (try assumption; lia).
  reflexivity.
Qed.

Lemma switch_to_input_default_raises_witness :
  wf (PCF8575_init loopback PCF8575_I2CADDR_DEFAULT) = true /\
  0 <= 0 <= 15 /\
  switch_to_input PyNone
    ({| _pin := 0; _dir := INPUT |},
     PCF8575_init loopback PCF8575_I2CADDR_DEFAULT)
  = (({| _pin := 0; _dir := INPUT |},
      after_write
        (with_bit (cached (PCF8575_init loopback PCF8575_I2CADDR_DEFAULT))
           0 true)
        (PCF8575_init loopback PCF8575_I2CADDR_DEFAULT)),
     Raise NotImplementedError).
Proof.
  split; [reflexivity|]. split; [lia|].
  apply (switch_to_input_default_raises
           {| _pin := 0; _dir := INPUT |}
           (PCF8575_init loopback PCF8575_I2CADDR_DEFAULT));
    [reflexivity | simpl; lia].
Defined.

(** C4 (as the code has it): [get_pin] checks [0 <= pin <= 15]; inside the
    range it returns a pin object with direction INPUT, outside it raises
    [AssertionError], and in both cases the [PCF8575] and its bus history
    are untouched.  The constructor [DigitalInOut] itself checks nothing:
    it returns a pin object for every pin number, also without touching
    the bus. *)
Theorem get_pin_validates (pin : Z) (self : PCF8575) :
  (0 <= pin <= 15 ->
   get_pin pin self = (self, Return {| _pin := pin; _dir := INPUT |})) /\
  (~ 0 <= pin <= 15 -> get_pin pin self = (self, Raise AssertionError)) /\
  DigitalInOut_init pin self
  = (self, Return {| _pin := pin; _dir := INPUT |}).
Proof.
  unfold get_pin, DigitalInOut_init, ret, raise.
  split; [|split]; [intros H|intros H|reflexivity].
  - replace ((0 <=? pin) && (pin <=? 15)) with true; [reflexivity|].
    symmetry. apply andb_true_iff. split; apply Z.leb_le; lia.
  - replace ((0 <=? pin) && (pin <=? 15)) with false; [reflexivity|].
    symmetry. apply andb_false_iff.
    destruct (Z_lt_le_dec pin 0) as [Hn|Hn].
    + left. apply Z.leb_gt. lia.
    + right. apply Z.leb_gt. lia.
Qed.

Lemma get_pin_validates_witness :
  get_pin 0 (PCF8575_init loopback PCF8575_I2CADDR_DEFAULT)
  = (PCF8575_init loopback PCF8575_I2CADDR_DEFAULT,
     Return {| _pin := 0; _dir := INPUT |}) /\
  get_pin 15 (PCF8575_init loopback PCF8575_I2CADDR_DEFAULT)
  = (PCF8575_init loopback PCF8575_I2CADDR_DEFAULT,
     Return {| _pin := 15; _dir := INPUT |}) /\
  get_pin 16 (PCF8575_init loopback PCF8575_I2CADDR_DEFAULT)
  = (PCF8575_init loopback PCF8575_I2CADDR_DEFAULT, Raise AssertionError) /\
  get_pin (-1) (PCF8575_init loopback PCF8575_I2CADDR_DEFAULT)
  = (PCF8575_init loopback PCF8575_I2CADDR_DEFAULT, Raise AssertionError).
Proof.
  split; [|split; [|split]].
  - apply (proj1 (get_pin_validates 0
             (PCF8575_init loopback PCF8575_I2CADDR_DEFAULT))). lia.
  - apply (proj1 (get_pin_validates 15
             (PCF8575_init loopback PCF8575_I2CADDR_DEFAULT))). lia.
  - apply (proj1 (proj2 (get_pin_validates 16
             (PCF8575_init loopback PCF8575_I2CADDR_DEFAULT)))). lia.
  - apply (proj1 (proj2 (get_pin_validates (-1)
             (PCF8575_init loopback PCF8575_I2CADDR_DEFAULT)))). lia.
Defined.

(** C4 (as stated) fails: constructing a [DigitalInOut] with pin number 16
    or -1 returns a pin object; nothing is raised. *)
Lemma DigitalInOut_init_accepts_16_and_minus_1 :
  DigitalInOut_init 16 (PCF8575_init loopback PCF8575_I2CADDR_DEFAULT)
  = (PCF8575_init loopback PCF8575_I2CADDR_DEFAULT,
     Return {| _pin := 16; _dir := INPUT |}) /\
  DigitalInOut_init (-1) (PCF8575_init loopback PCF8575_I2CADDR_DEFAULT)
  = (PCF8575_init loopback PCF8575_I2CADDR_DEFAULT,
     Return {| _pin := -1; _dir := INPUT |}).
Proof. split; reflexivity. Qed.

(** C7: for a pin 0..15 in either direction state, setting [pull] to
    anything but [Pull.UP] ([Pull.DOWN], [None], any other value) raises
    [NotImplementedError] and changes nothing, and setting it to [Pull.UP]
    returns after [write_pin(pin, True)]: one bus write of the cached value
    with the pin's bit set. *)
Theorem pull_set_only_up (d : DigitalInOut) (self : PCF8575) (val : pyobj) :
  wf self = true -> 0 <= _pin d <= 15 ->
  (val <> PyPull UP ->
   pull_set val (d, self) = ((d, self), Raise NotImplementedError)) /\
  pull_set (PyPull UP) (d, self)
  = ((d, fst (write_pin (_pin d) true self)), Return tt) /\
  write_pin (_pin d) true self
  = (after_write (with_bit (cached self) (_pin d) true) self, Return tt).
Proof.
  intros Hwf Hp. split; [|split].
  - intros Hval. destruct val as [| | | |[|]]; try reflexivity.
    now elim Hval.
  - unfold pull_set, bind, gets. cbn [fst snd].
    rewrite on_pcf_write_pin, write_pin_eq by (try assumption; lia).
    reflexivity.
  - apply write_pin_eq; [assumption | lia].
Qed.

Lemma pull_set_only_up_witness :
  wf (PCF8575_init loopback PCF8575_I2CADDR_DEFAULT) = true /\
  0 <= 7 <= 15 /\
  PyPull DOWN <> PyPull UP /\
  pull_set (PyPull DOWN)
    ({| _pin := 7; _dir := OUTPUT |},
     PCF8575_init loopback PCF8575_I2CADDR_DEFAULT)
  = (({| _pin := 7; _dir := OUTPUT |},
      PCF8575_init loopback PCF8575_I2CADDR_DEFAULT),
     Raise NotImplementedError).
Proof.
  split; [reflexivity|]. split; [lia|]. split; [discriminate|].
  apply (pull_set_only_up {| _pin := 7; _dir := OUTPUT |}
           (PCF8575_init loopback PCF8575_I2CADDR_DEFAULT) (PyPull DOWN));
    [reflexivity | simpl; lia | discriminate].
Defined.

(** C8: setting [direction] to a value that is neither [Direction.INPUT]
    nor [Direction.OUTPUT] raises [ValueError]; the pin object, with its
    direction tag, and the [PCF8575] are left as they were. *)
Theorem direction_set_invalid_raises (val : pyobj) (st : pin_state) :
  (forall dir, val <> PyDirection dir) ->
  direction_set val st = (st, Raise ValueError) /\
  _dir (fst (fst (direction_set val st))) = _dir (fst st).
Proof.
  intros Hval.
  assert (H : direction_set val st = (st, Raise ValueError)).
  { destruct val as [| | |dir|]; try reflexivity. now elim (Hval dir). }
  split; [exact H | now rewrite H].
Qed.

Lemma direction_set_invalid_raises_witness :
  (forall dir, PyNone <> PyDirection dir) /\
  direction_set PyNone
    ({| _pin := 2; _dir := OUTPUT |},
     PCF8575_init loopback PCF8575_I2CADDR_DEFAULT)
  = (({| _pin := 2; _dir := OUTPUT |},
      PCF8575_init loopback PCF8575_I2CADDR_DEFAULT),
     Raise ValueError).
Proof.
  split; [discriminate|].
  apply (direction_set_invalid_raises PyNone
           ({| _pin := 2; _dir := OUTPUT |},
            PCF8575_init loopback PCF8575_I2CADDR_DEFAULT)).
  discriminate.
Defined.

(** C9: on a pin [p] in 0..15, [switch_to_output(value=v)] returns after
    two whole-register bus writes: first the direction setter's
    [write_pin(p, False)], whose register value has bit [p] clear, then the
    value setter's [write_pin(p, v)].  The direction tag ends as OUTPUT and
    bit [p] of the cached register value ends as [v]. *)
Theorem switch_to_output_writes_twice
    (d : DigitalInOut) (self : PCF8575) (v : bool) :
  wf self = true -> 0 <= _pin d <= 15 ->
  exists s1 s2,
    write_pin (_pin d) false self = (s1, Return tt) /\
    write_pin (_pin d) v s1 = (s2, Return tt) /\
    switch_to_output v (d, self)
    = (({| _pin := _pin d; _dir := OUTPUT |}, s2), Return tt) /\
    transmitted s2 = transmitted self ++ [_writebuf s1; _writebuf s2] /\
    Z.testbit (decode (_writebuf s1)) (_pin d) = false /\
    Z.testbit (cached s2) (_pin d) = v.
Proof.
  intros Hwf Hp.
  set (s1 := after_write (with_bit (cached self) (_pin d) false) self).
  assert (Hwf1 : wf s1 = true) by now apply wf_after_write.
  exists s1, (after_write (with_bit (cached s1) (_pin d) v) s1).
  split; [apply write_pin_eq; [assumption | lia]|].
  split; [apply write_pin_eq; [assumption | lia]|].
  split.
  { unfold switch_to_output, bind.
    rewrite direction_set_eq by (try assumption; lia).
    fold s1. rewrite value_set_eq by (try assumption; simpl; lia).
    reflexivity. }
  split.
  { rewrite transmitted_after_write. unfold s1 at 1.
    rewrite transmitted_after_write, <- app_assoc. reflexivity. }
  split.
  - unfold s1. cbn [after_write _writebuf]. rewrite decode_encode.
    rewrite with_bit_in_register by (try apply cached_range; lia).
    apply with_bit_same. lia.
  - rewrite cached_after_write.
    rewrite with_bit_in_register by (try apply cached_range; lia).
    apply with_bit_same. lia.
Qed.

Lemma switch_to_output_writes_twice_witness :
  wf (PCF8575_init loopback PCF8575_I2CADDR_DEFAULT) = true /\
  0 <= 4 <= 15 /\
  exists s1 s2,
    write_pin 4 false (PCF8575_init loopback PCF8575_I2CADDR_DEFAULT)
    = (s1, Return tt) /\
    write_pin 4 true s1 = (s2, Return tt) /\
    switch_to_output true
      ({| _pin := 4; _dir := INPUT |},
       PCF8575_init loopback PCF8575_I2CADDR_DEFAULT)
    = (({| _pin := 4; _dir := OUTPUT |}, s2), Return tt) /\
    transmitted s2
    = transmitted (PCF8575_init loopback PCF8575_I2CADDR_DEFAULT)
      ++ [_writebuf s1; _writebuf s2] /\
    Z.testbit (decode (_writebuf s1)) 4 = false /\
    Z.testbit (cached s2) 4 = true.
Proof.
  split; [reflexivity|]. split; [lia|].
  apply (switch_to_output_writes_twice
           {| _pin := 4; _dir := INPUT |}
           (PCF8575_init loopback PCF8575_I2CADDR_DEFAULT) true);
    [reflexivity | simpl; lia].
Defined.

(** * Further properties of the register interface *)

Lemma read_gpio_after (self : PCF8575) :
  wf self = true ->
  read_gpio self
  = (after_read self, Return (decode (_readbuf (after_read self)))).
Proof.
  intros Hwf. destruct (wf_buffers self Hwf) as (a & b & c & d & Hw & Hr).
  destruct self as [dev wb rb]. simpl in Hw, Hr. subst wb rb.
  reflexivity.
Qed.

Lemma readbuf_after_read (self : PCF8575) :
  wf self = true ->
  _readbuf (after_read self)
  = [respond (i2c_device self) (trace (i2c_device self)) 0%nat;
     respond (i2c_device self) (trace (i2c_device self)) 1%nat].
Proof.
  intros Hwf. destruct (wf_buffers self Hwf) as (a & b & c & d & Hw & Hr).
  unfold after_read, i2c_readinto. cbn [_readbuf snd]. now rewrite Hr.
Qed.

Lemma trace_after_read (self : PCF8575) :
  wf self = true ->
  trace (i2c_device (after_read self))
  = BusRead 2 :: trace (i2c_device self).
Proof.
  intros Hwf. destruct (wf_buffers self Hwf) as (a & b & c & d & Hw & Hr).
  unfold after_read, i2c_readinto. cbn [i2c_device fst trace].
  now rewrite Hr.
Qed.

Lemma wf_after_read (self : PCF8575) :
  wf self = true -> wf (after_read self) = true.
Proof.
  intros Hwf. unfold wf. rewrite readbuf_after_read by exact Hwf.
  destruct (wf_buffers self Hwf) as (a & b & c & d & Hw & Hr).
  cbn [after_read _writebuf]. now rewrite Hw.
Qed.

(** [bool((v >> pin) & 0x1)] is bit [pin] of [v]. *)
Lemma shift_and_1_testbit (v pin : Z) :
  negb (Z.land (Z.shiftr v pin) 0x1 =? 0) = Z.testbit v pin.
Proof.
  change 0x1 with (Z.ones 1). rewrite Z.land_ones by lia.
  change (2 ^ 1) with 2.
  rewrite Z.testbit_odd, <- Z.bit0_odd, Z.bit0_eqb.
  pose proof (Z.mod_pos_bound (Z.shiftr v pin) 2 ltac:(lia)) as H.
  destruct (Z.eqb_spec (Z.shiftr v pin mod 2) 0) as [E0|E0];
    destruct (Z.eqb_spec (Z.shiftr v pin mod 2) 1) as [E1|E1];
    cbn [negb]; try reflexivity; lia.
Qed.

Lemma read_pin_after (pin : Z) (self : PCF8575) :
  wf self = true -> 0 <= pin ->
  read_pin pin self
  = (after_read self,
     Return (Z.testbit (decode (_readbuf (after_read self))) pin)).
Proof.
  intros Hwf Hp. unfold read_pin, bind.
  rewrite read_gpio_after by exact Hwf.
  unfold lift, py_rshift, ret.
  replace (pin <? 0) with false by (symmetry; apply Z.ltb_ge; lia).
  now rewrite shift_and_1_testbit.
Qed.

Lemma read_pin_negative (pin : Z) (self : PCF8575) :
  wf self = true -> pin < 0 ->
  read_pin pin self = (after_read self, Raise ValueError).
Proof.
  intros Hwf Hp. unfold read_pin, bind.
  rewrite read_gpio_after by exact Hwf.
  unfold lift, py_rshift.
  now replace (pin <? 0) with true by (symmetry; apply Z.ltb_lt; lia).
Qed.

(** Every call leaves the object as it was, as one register write leaves
    it, or as one register read leaves it. *)
Lemma run_op_cases (o : op) (self : PCF8575) :
  wf self = true ->
  run_op o self = self \/
  (exists val, run_op o self = after_write val self) \/
  run_op o self = after_read self.
Proof.
  intros Hwf. destruct o as [val|pin val| |pin]; cbn [run_op].
  - right. left. exists val. now rewrite write_gpio_eq.
  - destruct (Z_lt_le_dec pin 0) as [Hneg|Hpos].
    + left. now rewrite write_pin_negative.
    + right. left. eexists. now rewrite write_pin_eq.
  - right. right. now rewrite read_gpio_after.
  - right. right. destruct (Z_lt_le_dec pin 0) as [Hneg|Hpos].
    + now rewrite read_pin_negative.
    + now rewrite read_pin_after.
Qed.

Lemma with_bit_bits (reg pin : Z) (val : bool) (n : Z) :
  0 <= pin -> 0 <= n ->
  Z.testbit (with_bit reg pin val) n
  = if n =? pin then val else Z.testbit reg n.
Proof.
  intros Hp Hn. destruct (n =? pin) eqn:E.
  - apply Z.eqb_eq in E. subst n. now apply with_bit_same.
  - apply Z.eqb_neq in E. now apply with_bit_other.
Qed.

(** The bytes sent depend on the low 16 bits only. *)
Lemma encode_low16 (x y : Z) :
  Z.land x 0xFFFF = Z.land y 0xFFFF -> encode x = encode y.
Proof.
  intros H.
  assert (Hbits : forall n, 0 <= n < 16 -> Z.testbit x n = Z.testbit y n).
  { intros n Hn.
    assert (Hx : Z.testbit (Z.land x 0xFFFF) n = Z.testbit x n).
    { rewrite Z.land_spec, testbit_65535 by lia.
      replace (n <? 16) with true by (symmetry; apply Z.ltb_lt; lia).
      apply andb_true_r. }
    assert (Hy : Z.testbit (Z.land y 0xFFFF) n = Z.testbit y n).
    { rewrite Z.land_spec, testbit_65535 by lia.
      replace (n <? 16) with true by (symmetry; apply Z.ltb_lt; lia).
      apply andb_true_r. }
    now rewrite <- Hx, <- Hy, H. }
  unfold encode. f_equal; [|f_equal]; f_equal;
    apply Z.bits_inj'; intros n Hn;
    rewrite !Z.land_spec, testbit_255 by lia;
    destruct (n <? 8) eqn:E; rewrite ?andb_false_r; try reflexivity;
    apply Z.ltb_lt in E; rewrite !andb_true_r.
  - apply Hbits. lia.
  - rewrite !Z.shiftr_spec by lia. apply Hbits. lia.
Qed.

(** X1: on a pin index [pin >= 0], [read_pin] does one bus read and returns
    bit [pin] of the 16-bit value composed from the two bytes the chip
    answered; for [pin >= 16] that bit does not exist and the result is
    [False]. *)
Theorem read_pin_returns_input_bit (pin : Z) (self : PCF8575) :
  wf self = true -> 0 <= pin ->
  exists s',
    read_pin pin self
    = (s', Return (Z.testbit (decode (_readbuf s')) pin)) /\
    _readbuf s'
    = [respond (i2c_device self) (trace (i2c_device self)) 0%nat;
       respond (i2c_device self) (trace (i2c_device self)) 1%nat] /\
    trace (i2c_device s') = BusRead 2 :: trace (i2c_device self) /\
    (16 <= pin -> Z.testbit (decode (_readbuf s')) pin = false).
Proof.
  intros Hwf Hp. exists (after_read self).
  split; [now apply read_pin_after|].
  split; [now apply readbuf_after_read|].
  split; [now apply trace_after_read|].
  intros H16. now apply decode_bits_high.
Qed.

Lemma read_pin_returns_input_bit_witness :
  wf (PCF8575_init loopback PCF8575_I2CADDR_DEFAULT) = true /\
  0 <= 3 /\
  exists s',
    read_pin 3 (PCF8575_init loopback PCF8575_I2CADDR_DEFAULT)
    = (s', Return (Z.testbit (decode (_readbuf s')) 3)).
Proof.
  split; [reflexivity|]. split; [lia|].
  destruct (read_pin_returns_input_bit 3
              (PCF8575_init loopback PCF8575_I2CADDR_DEFAULT)
              eq_refl ltac:(lia)) as (s' & H & _).
  exists s'. exact H.
Defined.

(** X2: on a negative pin index, [read_pin] raises [ValueError] (negative
    shift count), but only after the bus read has taken place: the history
    has one more read and [_readbuf] holds the chip's answer. *)
Theorem read_pin_negative_raises_after_read (pin : Z) (self : PCF8575) :
  wf self = true -> pin < 0 ->
  exists s',
    read_pin pin self = (s', Raise ValueError) /\
    trace (i2c_device s') = BusRead 2 :: trace (i2c_device self) /\
    _readbuf s'
    = [respond (i2c_device self) (trace (i2c_device self)) 0%nat;
       respond (i2c_device self) (trace (i2c_device self)) 1%nat] /\
    _writebuf s' = _writebuf self.
Proof.
  intros Hwf Hp. exists (after_read self).
  split; [now apply read_pin_negative|].
  split; [now apply trace_after_read|].
  split; [now apply readbuf_after_read | reflexivity].
Qed.

Lemma read_pin_negative_raises_after_read_witness :
  wf (PCF8575_init loopback PCF8575_I2CADDR_DEFAULT) = true /\
  -1 < 0 /\
  exists s',
    read_pin (-1) (PCF8575_init loopback PCF8575_I2CADDR_DEFAULT)
    = (s', Raise ValueError).
Proof.
  split; [reflexivity|]. split; [lia|].
  destruct (read_pin_negative_raises_after_read (-1)
              (PCF8575_init loopback PCF8575_I2CADDR_DEFAULT)
              eq_refl ltac:(lia)) as (s' & H & _).
  exists s'. exact H.
Defined.

(** X3: whatever the chip answers, [read_gpio] returns a value in
    [0 .. 65535], after exactly one bus read of two bytes and no bus
    write. *)
Theorem read_gpio_is_16_bit (self : PCF8575) :
  wf self = true ->
  exists s' v,
    read_gpio self = (s', Return v) /\
    0 <= v < 65536 /\
    reads_of (trace (i2c_device s'))
    = reads_of (trace (i2c_device self)) ++ [2%nat] /\
    transmitted s' = transmitted self.
Proof.
  intros Hwf.
  exists (after_read self), (decode (_readbuf (after_read self))).
  split; [now apply read_gpio_after|].
  split; [apply decode_range|].
  split.
  - now rewrite trace_after_read.
  - unfold transmitted. now rewrite trace_after_read.
Qed.

Lemma read_gpio_is_16_bit_witness :
  wf (PCF8575_init loopback PCF8575_I2CADDR_DEFAULT) = true /\
  exists s' v,
    read_gpio (PCF8575_init loopback PCF8575_I2CADDR_DEFAULT)
    = (s', Return v) /\ 0 <= v < 65536.
Proof.
  split; [reflexivity|].
  destruct (read_gpio_is_16_bit
              (PCF8575_init loopback PCF8575_I2CADDR_DEFAULT) eq_refl)
    as (s' & v & H & Hv & _).
  exists s', v. split; [exact H | exact Hv].
Defined.

Lemma land_with_bit_bits (reg pin : Z) (val : bool) (n : Z) :
  0 <= pin -> 0 <= n ->
  Z.testbit (Z.land (with_bit reg pin val) 0xFFFF) n
  = (if n =? pin then val else Z.testbit reg n) && (n <? 16).
Proof.
  intros Hp Hn. rewrite Z.land_spec, testbit_65535 by lia.
  now rewrite with_bit_bits.
Qed.

(** X4: repeating [write_pin(p, v)] changes nothing more: the second call
    sends the same two bytes again and leaves [_writebuf] as the first call
    left it. *)
Theorem write_pin_idempotent (p : Z) (v : bool) (self : PCF8575) :
  wf self = true -> 0 <= p ->
  exists s1 s2,
    write_pin p v self = (s1, Return tt) /\
    write_pin p v s1 = (s2, Return tt) /\
    _writebuf s2 = _writebuf s1 /\
    transmitted s2 = transmitted self ++ [_writebuf s1; _writebuf s1].
Proof.
  intros Hwf Hp.
  set (s1 := after_write (with_bit (cached self) p v) self).
  assert (Hwf1 : wf s1 = true) by now apply wf_after_write.
  assert (Hsame : encode (with_bit (cached s1) p v)
                  = encode (with_bit (cached self) p v)).
  { apply encode_low16. unfold s1. rewrite cached_after_write.
    apply Z.bits_inj'. intros n Hn.
    rewrite !land_with_bit_bits by lia.
    destruct (n =? p); [reflexivity|].
    destruct (n <? 16); rewrite ?andb_false_r, ?andb_true_r; reflexivity. }
  exists s1, (after_write (with_bit (cached s1) p v) s1).
  split; [now apply write_pin_eq|].
  split; [now apply write_pin_eq|].
  split; [exact Hsame|].
  rewrite transmitted_after_write, Hsame. unfold s1.
  rewrite transmitted_after_write, <- app_assoc. reflexivity.
Qed.

Lemma write_pin_idempotent_witness :
  wf (PCF8575_init loopback PCF8575_I2CADDR_DEFAULT) = true /\
  0 <= 6 /\
  exists s1 s2,
    write_pin 6 true (PCF8575_init loopback PCF8575_I2CADDR_DEFAULT)
    = (s1, Return tt) /\
    write_pin 6 true s1 = (s2, Return tt) /\
    _writebuf s2 = _writebuf s1.
Proof.
  split; [reflexivity|]. split; [lia|].
  destruct (write_pin_idempotent 6 true
              (PCF8575_init loopback PCF8575_I2CADDR_DEFAULT)
              eq_refl ltac:(lia)) as (s1 & s2 & H1 & H2 & H3 & _).
  exists s1, s2. repeat split; assumption.
Defined.

(** X5: writes to two different pins commute: [write_pin(p, a)] then
    [write_pin(q, b)] leaves the same [_writebuf] as the other order. *)
Theorem write_pin_commute (p q : Z) (a b : bool) (self : PCF8575) :
  wf self = true -> 0 <= p -> 0 <= q -> p <> q ->
  exists sp spq sq sqp,
    write_pin p a self = (sp, Return tt) /\
    write_pin q b sp = (spq, Return tt) /\
    write_pin q b self = (sq, Return tt) /\
    write_pin p a sq = (sqp, Return tt) /\
    _writebuf spq = _writebuf sqp.
Proof.
  intros Hwf Hp Hq Hne.
  set (sp := after_write (with_bit (cached self) p a) self).
  set (sq := after_write (with_bit (cached self) q b) self).
  assert (Hwfp : wf sp = true) by now apply wf_after_write.
  assert (Hwfq : wf sq = true) by now apply wf_after_write.
  exists sp, (after_write (with_bit (cached sp) q b) sp),
         sq, (after_write (with_bit (cached sq) p a) sq).
  split; [now apply write_pin_eq|].
  split; [now apply write_pin_eq|].
  split; [now apply write_pin_eq|].
  split; [now apply write_pin_eq|].
  cbn [after_write _writebuf]. apply encode_low16.
  unfold sp, sq. rewrite !cached_after_write.
  apply Z.bits_inj'. intros n Hn.
  rewrite !land_with_bit_bits by lia.
  destruct (Z.eqb_spec n q) as [Eq|Eq]; destruct (Z.eqb_spec n p) as [Ep|Ep];
    try lia; try reflexivity;
    destruct (n <? 16); rewrite ?andb_false_r, ?andb_true_r; reflexivity.
Qed.

Lemma write_pin_commute_witness :
  wf (PCF8575_init loopback PCF8575_I2CADDR_DEFAULT) = true /\
  0 <= 1 /\ 0 <= 12 /\ 1 <> 12 /\
  exists sp spq sq sqp,
    write_pin 1 true (PCF8575_init loopback PCF8575_I2CADDR_DEFAULT)
    = (sp, Return tt) /\
    write_pin 12 true sp = (spq, Return tt) /\
    write_pin 12 true (PCF8575_init loopback PCF8575_I2CADDR_DEFAULT)
    = (sq, Return tt) /\
    write_pin 1 true sq = (sqp, Return tt) /\
    _writebuf spq = _writebuf sqp.
Proof.
  split; [reflexivity|]. split; [lia|]. split; [lia|]. split; [lia|].
  apply (write_pin_commute 1 12 true true
           (PCF8575_init loopback PCF8575_I2CADDR_DEFAULT));
    [reflexivity | lia | lia | lia].
Defined.

(** X6: against the echoing chip, after [write_pin(p, v)] on a pin 0..15,
    [read_pin(p)] returns [v], and [read_pin(q)] on any other pin returns
    the bit the cached register value had for [q]. *)
Theorem write_pin_read_pin_echo (p : Z) (v : bool) (self : PCF8575) :
  wf self = true ->
  respond (i2c_device self) = loopback ->
  0 <= p <= 15 ->
  exists s1,
    write_pin p v self = (s1, Return tt) /\
    (exists s2, read_pin p s1 = (s2, Return v)) /\
    (forall q, 0 <= q -> q <> p ->
       exists s2, read_pin q s1 = (s2, Return (Z.testbit (cached self) q))).
Proof.
  intros Hwf Hdev Hp.
  set (s1 := after_write (with_bit (cached self) p v) self).
  assert (Hwf1 : wf s1 = true) by now apply wf_after_write.
  assert (Hecho : decode (_readbuf (after_read s1))
                  = with_bit (cached self) p v).
  { rewrite readbuf_after_read by exact Hwf1.
    unfold s1. cbn [after_write i2c_device i2c_write respond trace].
    rewrite Hdev. cbn [loopback nth encode].
    change (decode (encode (with_bit (cached self) p v))
            = with_bit (cached self) p v).
    rewrite decode_encode.
    apply with_bit_in_register; [apply cached_range | lia]. }
  exists s1. split; [apply write_pin_eq; [assumption | lia]|]. split.
  - exists (after_read s1).
    rewrite read_pin_after by (try assumption; lia).
    rewrite Hecho, with_bit_same by lia. reflexivity.
  - intros q Hq Hne. exists (after_read s1).
    rewrite read_pin_after by assumption.
    rewrite Hecho, with_bit_other by lia. reflexivity.
Qed.

Lemma write_pin_read_pin_echo_witness :
  wf (PCF8575_init loopback PCF8575_I2CADDR_DEFAULT) = true /\
  respond (i2c_device (PCF8575_init loopback PCF8575_I2CADDR_DEFAULT))
  = loopback /\
  0 <= 3 <= 15 /\
  exists s1,
    write_pin 3 true (PCF8575_init loopback PCF8575_I2CADDR_DEFAULT)
    = (s1, Return tt) /\
    (exists s2, read_pin 3 s1 = (s2, Return true)).
Proof.
  split; [reflexivity|]. split; [reflexivity|]. split; [lia|].
  destruct (write_pin_read_pin_echo 3 true
              (PCF8575_init loopback PCF8575_I2CADDR_DEFAULT)
              eq_refl eq_refl ltac:(lia)) as (s1 & H1 & H2 & _).
  exists s1. split; assumption.
Defined.

(** ** Invariants over sequences of calls *)

Lemma run_app (ops1 ops2 : list op) (self : PCF8575) :
  run (ops1 ++ ops2) self = run ops2 (run ops1 self).
Proof. unfold run. apply fold_left_app. Qed.

(** A call that does not touch pin [p] leaves bit [p] of the cached
    value. *)
Lemma untouched_bit_run_op (p : Z) (o : op) (self : PCF8575) :
  wf self = true -> 0 <= p <= 15 -> touches p o = false ->
  Z.testbit (cached (run_op o self)) p = Z.testbit (cached self) p.
Proof.
  intros Hwf Hp Ht.
  destruct o as [val|q val| |q]; cbn [touches] in Ht; try discriminate.
  - apply Z.eqb_neq in Ht. cbn [run_op].
    destruct (Z_lt_le_dec q 0) as [Hneg|Hpos].
    + now rewrite write_pin_negative.
    + rewrite write_pin_eq by assumption. cbn [fst].
      rewrite cached_after_write, land_with_bit_bits by lia.
      replace (p =? q) with false by (symmetry; apply Z.eqb_neq; lia).
      replace (p <? 16) with true by (symmetry; apply Z.ltb_lt; lia).
      apply andb_true_r.
  - cbn [run_op]. unfold cached.
    now rewrite (proj1 (read_gpio_frame self)).
  - cbn [run_op]. unfold cached.
    now rewrite (proj1 (read_pin_frame q self)).
Qed.

Lemma untouched_bit_run (p : Z) (ops : list op) (self : PCF8575) :
  wf self = true -> 0 <= p <= 15 ->
  forallb (fun o => negb (touches p o)) ops = true ->
  Z.testbit (cached (run ops self)) p = Z.testbit (cached self) p.
Proof.
  intros Hwf Hp. revert self Hwf. unfold run.
  induction ops as [|o ops IH]; intros self Hwf Hops; [reflexivity|].
  cbn [forallb] in Hops. apply andb_true_iff in Hops.
  destruct Hops as [Ho Hops]. apply negb_true_iff in Ho.
  cbn [fold_left]. rewrite IH by (try apply wf_run_op; assumption).
  now apply untouched_bit_run_op.
Qed.

(** X7: the last write decides.  In any sequence of calls, of any kind and
    with any arguments, bit [p] of the cached register value (p in 0..15)
    is the level of the last [write_pin] on [p], or bit [p] of the last
    [write_gpio] value, whichever came later; calls on other pins, reads
    and calls that raise in between do not matter. *)
Theorem last_write_decides_bit
    (p : Z) (before after : list op) (self : PCF8575) :
  wf self = true -> 0 <= p <= 15 ->
  forallb (fun o => negb (touches p o)) after = true ->
  (forall v,
     Z.testbit (cached (run (before ++ OpWritePin p v :: after) self)) p
     = v) /\
  (forall val,
     Z.testbit (cached (run (before ++ OpWriteGpio val :: after) self)) p
     = Z.testbit val p).
Proof.
  intros Hwf Hp Hafter.
  assert (Hwfb : wf (run before self) = true) by now apply wf_run.
  split.
  - intros v. rewrite run_app.
    change (run (OpWritePin p v :: after) (run before self))
      with (run after (run_op (OpWritePin p v) (run before self))).
    rewrite untouched_bit_run by (try apply wf_run_op; assumption).
    cbn [run_op]. rewrite write_pin_eq by (try assumption; lia).
    cbn [fst]. rewrite cached_after_write, land_with_bit_bits by lia.
    rewrite Z.eqb_refl.
    replace (p <? 16) with true by (symmetry; apply Z.ltb_lt; lia).
    apply andb_true_r.
  - intros val. rewrite run_app.
    change (run (OpWriteGpio val :: after) (run before self))
      with (run after (run_op (OpWriteGpio val) (run before self))).
    rewrite untouched_bit_run by (try apply wf_run_op; assumption).
    cbn [run_op]. rewrite write_gpio_eq by assumption.
    cbn [fst]. rewrite cached_after_write.
    rewrite Z.land_spec, testbit_65535 by lia.
    replace (p <? 16) with true by (symmetry; apply Z.ltb_lt; lia).
    apply andb_true_r.
Qed.

Lemma last_write_decides_bit_witness :
  wf (PCF8575_init loopback PCF8575_I2CADDR_DEFAULT) = true /\
  0 <= 3 <= 15 /\
  forallb (fun o => negb (touches 3 o))
    [OpWritePin 4 true; OpReadPin (-1); OpWritePin (-2) true; OpReadGpio]
  = true /\
  Z.testbit
    (cached
       (run ([OpWriteGpio 0xFFFF; OpWritePin 3 true]
             ++ OpWritePin 3 false
             :: [OpWritePin 4 true; OpReadPin (-1); OpWritePin (-2) true;
                 OpReadGpio])
          (PCF8575_init loopback PCF8575_I2CADDR_DEFAULT))) 3
  = false.
Proof.
  split; [reflexivity|]. split; [lia|]. split; [reflexivity|].
  apply (proj1 (last_write_decides_bit 3
           [OpWriteGpio 0xFFFF; OpWritePin 3 true]
           [OpWritePin 4 true; OpReadPin (-1); OpWritePin (-2) true;
            OpReadGpio]
           (PCF8575_init loopback PCF8575_I2CADDR_DEFAULT)
           eq_refl ltac:(lia) eq_refl)).
Defined.



(** X9: no call changes the device the object talks to or the size of its
    buffers: after any sequence of calls the I2C address and the chip are
    the ones given at construction, both buffers still hold two bytes, and
    every frame the calls sent has exactly two bytes. *)
Theorem device_and_buffers_fixed (ops : list op) (self : PCF8575) :
  wf self = true ->
  device_address (i2c_device (run ops self))
  = device_address (i2c_device self) /\
  respond (i2c_device (run ops self)) = respond (i2c_device self) /\
  length (_writebuf (run ops self)) = 2%nat /\
  length (_readbuf (run ops self)) = 2%nat /\
  exists frames,
    transmitted (run ops self) = transmitted self ++ frames /\
    Forall (fun f => length f = 2%nat) frames.
Proof.
  intros Hwf.
  assert (Hlen : length (_writebuf (run ops self)) = 2%nat /\
                 length (_readbuf (run ops self)) = 2%nat).
  { destruct (wf_buffers _ (wf_run ops self Hwf))
      as (a & b & c & d & Hw & Hr).
    rewrite Hw, Hr. split; reflexivity. }
  destruct Hlen as [Hlw Hlr].
  assert (H : device_address (i2c_device (run ops self))
              = device_address (i2c_device self) /\
              respond (i2c_device (run ops self))
              = respond (i2c_device self) /\
              exists frames,
                transmitted (run ops self) = transmitted self ++ frames /\
                Forall (fun f => length f = 2%nat) frames).
  { clear Hlw Hlr. revert self Hwf. unfold run.
    induction ops as [|o ops IH]; intros self Hwf.
    - split; [reflexivity|]. split; [reflexivity|].
      exists []. split; [now rewrite app_nil_r | constructor].
    - cbn [fold_left].
      destruct (IH (run_op o self) (wf_run_op o self Hwf))
        as (Ha & Hr & frames & Ht & Hf).
      rewrite Ha, Hr, Ht.
      destruct (run_op_cases o self Hwf) as [E|[[val E]|E]]; rewrite E.
      + split; [reflexivity|]. split; [reflexivity|].
        now exists frames.
      + split; [reflexivity|]. split; [reflexivity|].
        exists (encode val :: frames). split.
        * rewrite transmitted_after_write, <- app_assoc. reflexivity.
        * constructor; [reflexivity | exact Hf].
      + split; [unfold after_read, i2c_readinto; reflexivity|].
        split; [unfold after_read, i2c_readinto; reflexivity|].
        exists frames. split; [|exact Hf].
        unfold transmitted. now rewrite trace_after_read. }
  destruct H as (Ha & Hr & Hfr).
  split; [exact Ha|]. split; [exact Hr|].
  split; [exact Hlw|]. split; [exact Hlr | exact Hfr].
Qed.

Lemma device_and_buffers_fixed_witness :
  wf (PCF8575_init loopback 0x27) = true /\
  device_address
    (i2c_device
       (run [OpWritePin 2 false; OpReadGpio; OpWriteGpio 0x1FFFF]
          (PCF8575_init loopback 0x27)))
  = device_address (i2c_device (PCF8575_init loopback 0x27)).
Proof.
  split; [reflexivity|].
  apply (device_and_buffers_fixed
           [OpWritePin 2 false; OpReadGpio; OpWriteGpio 0x1FFFF]
           (PCF8575_init loopback 0x27) eq_refl).
Defined.

(** * Further properties of the pin view *)

Lemma on_pcf_write_pin_negative
    (d : DigitalInOut) (self : PCF8575) (val : bool) :
  wf self = true -> _pin d < 0 ->
  on_pcf (write_pin (_pin d) val) (d, self) = ((d, self), Raise ValueError).
Proof.
  intros Hwf Hp. unfold on_pcf. cbn [fst snd].
  now rewrite write_pin_negative.
Qed.

(** X10: a [DigitalInOut] built directly with a negative pin number cannot
    write: setting its value, its direction (to INPUT or OUTPUT) or its
    pull (to UP), and both switch methods, raise [ValueError]; nothing is
    sent, and the object, with its direction tag, stays as it was. *)
Theorem negative_pin_writes_raise
    (d : DigitalInOut) (self : PCF8575) :
  wf self = true -> _pin d < 0 ->
  (forall v, value_set v (d, self) = ((d, self), Raise ValueError)) /\
  (forall dir,
     direction_set (PyDirection dir) (d, self)
     = ((d, self), Raise ValueError)) /\
  pull_set (PyPull UP) (d, self) = ((d, self), Raise ValueError) /\
  (forall v, switch_to_output v (d, self) = ((d, self), Raise ValueError)) /\
  (forall pull,
     switch_to_input pull (d, self) = ((d, self), Raise ValueError)).
Proof.
  intros Hwf Hp.
  assert (Hdir : forall dir,
             direction_set (PyDirection dir) (d, self)
             = ((d, self), Raise ValueError)).
  { intros [|]; unfold direction_set, bind, gets; cbn [fst snd];
      now rewrite on_pcf_write_pin_negative. }
  split; [|split; [exact Hdir|split; [|split]]].
  - intros v. unfold value_set, bind, gets. cbn [fst snd].
    now apply on_pcf_write_pin_negative.
  - unfold pull_set, bind, gets. cbn [fst snd].
    now apply on_pcf_write_pin_negative.
  - intros v. unfold switch_to_output, bind. now rewrite Hdir.
  - intros pull. unfold switch_to_input, bind. now rewrite Hdir.
Qed.

Lemma negative_pin_writes_raise_witness :
  wf (PCF8575_init loopback PCF8575_I2CADDR_DEFAULT) = true /\
  -1 < 0 /\
  switch_to_output true
    ({| _pin := -1; _dir := INPUT |},
     PCF8575_init loopback PCF8575_I2CADDR_DEFAULT)
  = (({| _pin := -1; _dir := INPUT |},
      PCF8575_init loopback PCF8575_I2CADDR_DEFAULT),
     Raise ValueError).
Proof.
  split; [reflexivity|]. split; [lia|].
  apply (proj1 (proj2 (proj2 (proj2
           (negative_pin_writes_raise {| _pin := -1; _dir := INPUT |}
              (PCF8575_init loopback PCF8575_I2CADDR_DEFAULT)
              eq_refl ltac:(simpl; lia)))))).
Defined.

Lemma encode_with_bit_again (p : Z) (v : bool) (self : PCF8575) :
  0 <= p ->
  encode (with_bit (cached (after_write (with_bit (cached self) p v) self))
            p v)
  = encode (with_bit (cached self) p v).
Proof.
  intros Hp. apply encode_low16. rewrite cached_after_write.
  apply Z.bits_inj'. intros n Hn.
  rewrite !land_with_bit_bits by lia.
  destruct (n =? p); [reflexivity|].
  destruct (n <? 16); rewrite ?andb_false_r, ?andb_true_r; reflexivity.
Qed.

(** X11: on a pin 0..15, [switch_to_input(pull=Pull.UP)] returns; it sends
    the same frame twice (the direction setter's write and the pull
    setter's), the cached value with the pin's bit set, and the direction
    tag ends as INPUT. *)
Theorem switch_to_input_pull_up (d : DigitalInOut) (self : PCF8575) :
  wf self = true -> 0 <= _pin d <= 15 ->
  exists s',
    switch_to_input (PyPull UP) (d, self)
    = (({| _pin := _pin d; _dir := INPUT |}, s'), Return tt) /\
    transmitted s' = transmitted self ++ [_writebuf s'; _writebuf s'] /\
    Z.testbit (cached s') (_pin d) = true /\
    (forall j, 0 <= j -> j <> _pin d ->
       Z.testbit (cached s') j = Z.testbit (cached self) j).
Proof.
  intros Hwf Hp.
  set (s1 := after_write (with_bit (cached self) (_pin d) true) self).
  assert (Hwf1 : wf s1 = true) by now apply wf_after_write.
  assert (Hsame : encode (with_bit (cached s1) (_pin d) true)
                  = encode (with_bit (cached self) (_pin d) true))
    by (apply encode_with_bit_again; lia).
  exists (after_write (with_bit (cached s1) (_pin d) true) s1).
  split; [|split; [|split]].
  - unfold switch_to_input, bind.
    rewrite direction_set_eq by (try assumption; lia).
    fold s1. unfold pull_set, bind, gets. cbn [fst snd].
    change (_pin {| _pin := _pin d; _dir := INPUT |}) with (_pin d).
    unfold on_pcf. cbn [fst snd].
    rewrite write_pin_eq by (try assumption; lia). reflexivity.
  - rewrite transmitted_after_write. cbn [after_write _writebuf].
    rewrite Hsame. unfold s1.
    rewrite transmitted_after_write, <- app_assoc. reflexivity.
  - rewrite cached_after_write, land_with_bit_bits by lia.
    rewrite Z.eqb_refl.
    now replace (_pin d <? 16) with true by (symmetry; apply Z.ltb_lt; lia).
  - intros j Hj Hne. unfold cached at 1. cbn [after_write _writebuf].
    rewrite Hsame, decode_encode.
    rewrite with_bit_in_register by (try apply cached_range; lia).
    apply with_bit_other; lia.
Qed.

Lemma switch_to_input_pull_up_witness :
  wf (PCF8575_init loopback PCF8575_I2CADDR_DEFAULT) = true /\
  0 <= 8 <= 15 /\
  exists s',
    switch_to_input (PyPull UP)
      ({| _pin := 8; _dir := OUTPUT |},
       PCF8575_init loopback PCF8575_I2CADDR_DEFAULT)
    = (({| _pin := 8; _dir := INPUT |}, s'), Return tt).
Proof.
  split; [reflexivity|]. split; [lia|].
  destruct (switch_to_input_pull_up {| _pin := 8; _dir := OUTPUT |}
              (PCF8575_init loopback PCF8575_I2CADDR_DEFAULT)
              eq_refl ltac:(simpl; lia)) as (s' & H & _).
  exists s'. exact H.
Defined.

(** X12: on a pin 0..15, [switch_to_input] with any [pull] other than
    [Pull.UP] (for one, [Pull.DOWN]) raises [NotImplementedError] only
    after the direction setter has run: the tag is INPUT and one frame with
    the pin's bit set has been sent. *)
Theorem switch_to_input_rejected_pull_half_done
    (d : DigitalInOut) (self : PCF8575) (pull : pyobj) :
  wf self = true -> 0 <= _pin d <= 15 -> pull <> PyPull UP ->
  exists s',
    switch_to_input pull (d, self)
    = (({| _pin := _pin d; _dir := INPUT |}, s'),
       Raise NotImplementedError) /\
    transmitted s' = transmitted self ++ [_writebuf s'] /\
    Z.testbit (cached s') (_pin d) = true.
Proof.
  intros Hwf Hp Hpull.
  exists (after_write (with_bit (cached self) (_pin d) true) self).
  split; [|split].
  - unfold switch_to_input, bind.
    rewrite direction_set_eq by (try assumption; lia).
    destruct pull as [| | | |[|]]; try reflexivity. now elim Hpull.
  - reflexivity.
  - rewrite cached_after_write, land_with_bit_bits by lia.
    rewrite Z.eqb_refl.
    now replace (_pin d <? 16) with true by (symmetry; apply Z.ltb_lt; lia).
Qed.

Lemma switch_to_input_rejected_pull_half_done_witness :
  wf (PCF8575_init loopback PCF8575_I2CADDR_DEFAULT) = true /\
  0 <= 5 <= 15 /\
  PyPull DOWN <> PyPull UP /\
  exists s',
    switch_to_input (PyPull DOWN)
      ({| _pin := 5; _dir := OUTPUT |},
       PCF8575_init loopback PCF8575_I2CADDR_DEFAULT)
    = (({| _pin := 5; _dir := INPUT |}, s'), Raise NotImplementedError).
Proof.
  split; [reflexivity|]. split; [lia|]. split; [discriminate|].
  destruct (switch_to_input_rejected_pull_half_done
              {| _pin := 5; _dir := OUTPUT |}
              (PCF8575_init loopback PCF8575_I2CADDR_DEFAULT)
              (PyPull DOWN) eq_refl ltac:(simpl; lia) ltac:(discriminate))
    as (s' & H & _).
  exists s'. exact H.
Defined.

(** X13: the direction getter returns the last direction set, without bus
    traffic: after [direction = dir] on a pin with a non-negative number,
    reading [direction] gives [dir] and leaves everything as the setter
    left it. *)
Theorem direction_set_then_get
    (d : DigitalInOut) (self : PCF8575) (dir : Direction) :
  wf self = true -> 0 <= _pin d ->
  exists st',
    direction_set (PyDirection dir) (d, self) = (st', Return tt) /\
    direction_get st' = (st', Return dir).
Proof.
  intros Hwf Hp. eexists. split.
  - now apply direction_set_eq.
  - reflexivity.
Qed.

Lemma direction_set_then_get_witness :
  wf (PCF8575_init loopback PCF8575_I2CADDR_DEFAULT) = true /\
  0 <= 0 /\
  exists st',
    direction_set (PyDirection OUTPUT)
      ({| _pin := 0; _dir := INPUT |},
       PCF8575_init loopback PCF8575_I2CADDR_DEFAULT)
    = (st', Return tt) /\
    direction_get st' = (st', Return OUTPUT).
Proof.
  split; [reflexivity|]. split; [lia|].
  apply (direction_set_then_get {| _pin := 0; _dir := INPUT |}
           (PCF8575_init loopback PCF8575_I2CADDR_DEFAULT) OUTPUT);
    [reflexivity | simpl; lia].
Defined.

Lemma switch_to_output_two_steps
    (d : DigitalInOut) (self : PCF8575) (v : bool) :
  wf self = true -> 0 <= _pin d <= 15 ->
  exists s2,
    switch_to_output v (d, self)
    = (({| _pin := _pin d; _dir := OUTPUT |}, s2), Return tt).
Proof.
  intros Hwf Hp. unfold switch_to_output, bind.
  rewrite direction_set_eq by (try assumption; lia).
  rewrite value_set_eq
    by (try (apply wf_after_write; assumption); simpl; lia).
  eexists. reflexivity.
Qed.

(** X14: a pin obtained from [get_pin] works.  When [get_pin] returns, the
    [PCF8575] is untouched, the pin number is in 0..15 and the direction
    tag is INPUT; on that pin the value setter, the direction setter (INPUT
    or OUTPUT), [switch_to_output], [switch_to_input(Pull.UP)] and the
    value getter all return without raising. *)
Theorem pin_from_get_pin_works
    (pin : Z) (self self' : PCF8575) (d : DigitalInOut) :
  wf self = true ->
  get_pin pin self = (self', Return d) ->
  self' = self /\ _pin d = pin /\ 0 <= pin <= 15 /\ _dir d = INPUT /\
  (forall v, exists st', value_set v (d, self) = (st', Return tt)) /\
  (forall dir,
     exists st', direction_set (PyDirection dir) (d, self)
                 = (st', Return tt)) /\
  (forall v, exists st', switch_to_output v (d, self) = (st', Return tt)) /\
  (exists st', switch_to_input (PyPull UP) (d, self) = (st', Return tt)) /\
  (exists st' b, value_get (d, self) = (st', Return b)).
Proof.
  intros Hwf Hget. unfold get_pin, DigitalInOut_init, ret, raise in Hget.
  destruct ((0 <=? pin) && (pin <=? 15)) eqn:E; [|discriminate].
  apply andb_true_iff in E. destruct E as [E0 E1].
  apply Z.leb_le in E0, E1.
  injection Hget as Hself Hd. subst self' d. cbn [_pin _dir].
  set (d := {| _pin := pin; _dir := INPUT |}).
  assert (Hp : 0 <= _pin d <= 15) by (simpl; lia).
  split; [reflexivity|]. split; [reflexivity|]. split; [lia|].
  split; [reflexivity|].
  split; [|split; [|split; [|split]]].
  - intros v. eexists. apply value_set_eq; [assumption | lia].
  - intros dir. eexists. apply direction_set_eq; [assumption | lia].
  - intros v.
    destruct (switch_to_output_two_steps d self v Hwf Hp) as (s2 & H).
    eexists. exact H.
  - unfold switch_to_input, bind.
    rewrite direction_set_eq by (try assumption; lia).
    unfold pull_set, bind, gets, on_pcf. cbn [fst snd].
    rewrite write_pin_eq
      by (try (apply wf_after_write; assumption); simpl; lia).
    eexists. reflexivity.
  - unfold value_get, bind, gets, on_pcf. cbn [fst snd].
    rewrite read_pin_after by (try assumption; lia).
    eexists. eexists. reflexivity.
Qed.

Lemma pin_from_get_pin_works_witness :
  wf (PCF8575_init loopback PCF8575_I2CADDR_DEFAULT) = true /\
  get_pin 15 (PCF8575_init loopback PCF8575_I2CADDR_DEFAULT)
  = (PCF8575_init loopback PCF8575_I2CADDR_DEFAULT,
     Return {| _pin := 15; _dir := INPUT |}) /\
  (forall v,
     exists st',
       switch_to_output v
         ({| _pin := 15; _dir := INPUT |},
          PCF8575_init loopback PCF8575_I2CADDR_DEFAULT)
       = (st', Return tt)).
Proof.
  split; [reflexivity|]. split; [reflexivity|].
  apply (pin_from_get_pin_works 15
           (PCF8575_init loopback PCF8575_I2CADDR_DEFAULT)
           (PCF8575_init loopback PCF8575_I2CADDR_DEFAULT)
           {| _pin := 15; _dir := INPUT |} eq_refl eq_refl).
Defined.

(** X15: two pin objects share the one register.  With distinct pin numbers
    in 0..15, setting the value of one and then of the other leaves both
    bits as commanded and every other bit of the cached value unchanged:
    the second write builds on the first. *)
Theorem two_pins_share_register
    (da db : DigitalInOut) (va vb : bool) (self : PCF8575) :
  wf self = true ->
  0 <= _pin da <= 15 -> 0 <= _pin db <= 15 -> _pin da <> _pin db ->
  exists s1 s2,
    value_set va (da, self) = ((da, s1), Return tt) /\
    value_set vb (db, s1) = ((db, s2), Return tt) /\
    Z.testbit (cached s2) (_pin da) = va /\
    Z.testbit (cached s2) (_pin db) = vb /\
    (forall j, 0 <= j -> j <> _pin da -> j <> _pin db ->
       Z.testbit (cached s2) j = Z.testbit (cached self) j).
Proof.
  intros Hwf Ha Hb Hne.
  set (s1 := after_write (with_bit (cached self) (_pin da) va) self).
  assert (Hwf1 : wf s1 = true) by now apply wf_after_write.
  assert (Hc1 : cached s1 = with_bit (cached self) (_pin da) va).
  { unfold s1. rewrite cached_after_write.
    apply with_bit_in_register; [apply cached_range | lia]. }
  assert (Hc2 : cached (after_write (with_bit (cached s1) (_pin db) vb) s1)
                = with_bit (cached s1) (_pin db) vb).
  { rewrite cached_after_write.
    apply with_bit_in_register; [apply cached_range | lia]. }
  exists s1, (after_write (with_bit (cached s1) (_pin db) vb) s1).
  split; [apply value_set_eq; [assumption | lia]|].
  split; [apply value_set_eq; [assumption | lia]|].
  rewrite Hc2, Hc1. split; [|split].
  - rewrite with_bit_other by lia. apply with_bit_same. lia.
  - apply with_bit_same. lia.
  - intros j Hj Hja Hjb. now rewrite !with_bit_other by lia.
Qed.

Lemma two_pins_share_register_witness :
  wf (PCF8575_init loopback PCF8575_I2CADDR_DEFAULT) = true /\
  0 <= 0 <= 15 /\ 0 <= 15 <= 15 /\ 0 <> 15 /\
  exists s1 s2,
    value_set true
      ({| _pin := 0; _dir := INPUT |},
       PCF8575_init loopback PCF8575_I2CADDR_DEFAULT)
    = (({| _pin := 0; _dir := INPUT |}, s1), Return tt) /\
    value_set true ({| _pin := 15; _dir := INPUT |}, s1)
    = (({| _pin := 15; _dir := INPUT |}, s2), Return tt) /\
    Z.testbit (cached s2) 0 = true /\
    Z.testbit (cached s2) 15 = true.
Proof.
  split; [reflexivity|]. split; [lia|]. split; [lia|]. split; [lia|].
  destruct (two_pins_share_register
              {| _pin := 0; _dir := INPUT |} {| _pin := 15; _dir := INPUT |}
              true true (PCF8575_init loopback PCF8575_I2CADDR_DEFAULT)
              eq_refl ltac:(simpl; lia) ltac:(simpl; lia)
              ltac:(simpl; lia))
    as (s1 & s2 & H1 & H2 & H3 & H4 & _).
  exists s1, s2. repeat split; assumption.
Defined.

Lemma byte_of_byte_to_Z (b : byte) : byte_of (byte_to_Z b) = b.
Proof.
  pose proof (byte_to_Z_range b) as Hr.
  unfold byte_of, Z_to_byte.
  replace ((0 <=? byte_to_Z b) && (byte_to_Z b <? 256)) with true
    by (symmetry; apply andb_true_iff; split;
        [apply Z.leb_le | apply Z.ltb_lt]; lia).
  unfold byte_to_Z. now rewrite N2Z.id, Byte.of_to_N.
Qed.

(** Storing the value a 2-byte buffer encodes gives the buffer back. *)
Lemma encode_decode (lo hi : byte) : encode (decode [lo; hi]) = [lo; hi].
Proof.
  assert (Hlo : Z.land (decode [lo; hi]) 0xFF = byte_to_Z lo).
  { apply Z.bits_inj'. intros n Hn.
    rewrite Z.land_spec, testbit_255, decode_bits by lia.
    destruct (n <? 8) eqn:E; [apply andb_true_r|].
    apply Z.ltb_ge in E. rewrite andb_false_r.
    symmetry. now apply byte_bits_high. }
  assert (Hhi : Z.land (Z.shiftr (decode [lo; hi]) 8) 0xFF = byte_to_Z hi).
  { apply Z.bits_inj'. intros n Hn.
    rewrite Z.land_spec, testbit_255, Z.shiftr_spec, decode_bits by lia.
    replace (n + 8 <? 8) with false by (symmetry; apply Z.ltb_ge; lia).
    replace (n + 8 - 8) with n by lia.
    destruct (n <? 8) eqn:E; [apply andb_true_r|].
    apply Z.ltb_ge in E. rewrite andb_false_r.
    symmetry. now apply byte_bits_high. }
  unfold encode. now rewrite Hlo, Hhi, !byte_of_byte_to_Z.
Qed.

(** X16: a [DigitalInOut] built directly with a pin number of 16 or more is
    inert: setting its value returns but leaves [_writebuf] as it was (the
    same frame is sent again), and its value always reads [False]. *)
Theorem pin_past_register_is_inert
    (d : DigitalInOut) (self : PCF8575) :
  wf self = true -> 16 <= _pin d ->
  (forall v,
     exists s',
       value_set v (d, self) = ((d, s'), Return tt) /\
       _writebuf s' = _writebuf self /\
       transmitted s' = transmitted self ++ [_writebuf self]) /\
  (exists s', value_get (d, self) = ((d, s'), Return false)).
Proof.
  intros Hwf Hp. split.
  - intros v.
    assert (Hbuf : encode (with_bit (cached self) (_pin d) v)
                   = _writebuf self).
    { destruct (wf_buffers self Hwf) as (a & b & c & e & Hw & Hr).
      rewrite (encode_low16 _ (cached self)).
      - unfold cached. rewrite Hw. apply encode_decode.
      - rewrite with_bit_outside_register
          by (try apply cached_range; lia).
        symmetry. apply land_65535_small, cached_range. }
    exists (after_write (with_bit (cached self) (_pin d) v) self).
    split; [apply value_set_eq; [assumption | lia]|].
    split; [exact Hbuf|].
    now rewrite transmitted_after_write, Hbuf.
  - exists (after_read self).
    unfold value_get, bind, gets, on_pcf. cbn [fst snd].
    rewrite read_pin_after by (try assumption; lia).
    now rewrite decode_bits_high by lia.
Qed.

Lemma pin_past_register_is_inert_witness :
  wf (PCF8575_init loopback PCF8575_I2CADDR_DEFAULT) = true /\
  16 <= 16 /\
  exists s',
    value_get
      ({| _pin := 16; _dir := INPUT |},
       PCF8575_init loopback PCF8575_I2CADDR_DEFAULT)
    = (({| _pin := 16; _dir := INPUT |}, s'), Return false).
Proof.
  split; [reflexivity|]. split; [lia|].
  apply (pin_past_register_is_inert {| _pin := 16; _dir := INPUT |}
           (PCF8575_init loopback PCF8575_I2CADDR_DEFAULT)
           eq_refl ltac:(simpl; lia)).
Defined.

(** * The example program *)

(** [not vals & (1 << b)] holds exactly when bit [b] of [vals] is clear. *)
Lemma and_bit_zero (vals b : Z) :
  0 <= b ->
  (Z.land vals (Z.shiftl 1 b) =? 0) = negb (Z.testbit vals b).
Proof.
  intros Hb. rewrite Z.shiftl_1_l.
  destruct (Z.testbit vals b) eqn:E; cbn [negb].
  - apply Z.eqb_neq. intros H0.
    assert (Hbit : Z.testbit (Z.land vals (2 ^ b)) b = true)
      by (rewrite Z.land_spec, E, Z.pow2_bits_true by lia; reflexivity).
    rewrite H0, Z.testbit_0_l in Hbit. discriminate.
  - apply Z.eqb_eq. apply Z.bits_inj'. intros n Hn.
    rewrite Z.land_spec, Z.testbit_0_l, Z.pow2_bits_eqb by lia.
    destruct (Z.eqb_spec b n) as [->|_]; [now rewrite E|].
    apply andb_false_r.
Qed.

(** X17: one pass of the example's [for] loop reports button [b] exactly
    when [b] is in 0..15 and bit [b] of the value read is 0 (the pin is
    pulled low). *)
Theorem pressed_buttons_are_low_bits (vals b : Z) :
  In b (pressed_buttons vals) <-> 0 <= b <= 15 /\ Z.testbit vals b = false.
Proof.
  unfold pressed_buttons. rewrite filter_In, in_map_iff. split.
  - intros [(k & Hk & Hin) Hz]. apply in_seq in Hin. subst b.
    rewrite and_bit_zero in Hz by lia. apply negb_true_iff in Hz.
    split; [lia | exact Hz].
  - intros [Hb Hbit]. split.
    + exists (Z.to_nat b). split; [lia|]. apply in_seq. lia.
    + rewrite and_bit_zero by lia. now rewrite Hbit.
Qed.

Lemma pressed_buttons_are_low_bits_witness :
  (0 <= 3 <= 15 /\ Z.testbit 0xFFF7 3 = false) /\
  In 3 (pressed_buttons 0xFFF7).
Proof.
  split; [split; [lia | reflexivity]|].
  apply (proj2 (pressed_buttons_are_low_bits 0xFFF7 3)).
  split; [lia | reflexivity].
Defined.

Lemma poll_after (self : PCF8575) :
  wf self = true ->
  poll self
  = (after_read self,
     Return (pressed_buttons (decode (_readbuf (after_read self))))).
Proof.
  intros Hwf. unfold poll, bind. now rewrite read_gpio_after.
Qed.

Lemma poll_loop_spec (n : nat) (self : PCF8575) :
  wf self = true ->
  exists s' out,
    poll_loop n self = (s', Return out) /\
    length out = n /\
    wf s' = true /\
    _writebuf s' = _writebuf self /\
    transmitted s' = transmitted self /\
    reads_of (trace (i2c_device s'))
    = reads_of (trace (i2c_device self)) ++ repeat 2%nat n /\
    (respond (i2c_device self) = loopback ->
     loopback (trace (i2c_device self)) 0%nat = xff ->
     loopback (trace (i2c_device self)) 1%nat = xff ->
     out = repeat [] n).
Proof.
  revert self. induction n as [|n IH]; intros self Hwf.
  - exists self, []. cbn [poll_loop repeat]. rewrite app_nil_r.
    repeat split; try reflexivity; assumption.
  - destruct (IH (after_read self) (wf_after_read self Hwf))
      as (s' & out & Hrun & Hlen & Hwf' & Hbuf & Hsent & Hreads & Hquiet).
    exists s', (pressed_buttons (decode (_readbuf (after_read self))) :: out).
    split; [|split; [|split; [|split; [|split; [|split]]]]].
    + cbn [poll_loop]. unfold bind at 1. rewrite poll_after by exact Hwf.
      unfold bind. now rewrite Hrun.
    + cbn [length]. now rewrite Hlen.
    + exact Hwf'.
    + now rewrite Hbuf.
    + rewrite Hsent. unfold transmitted. now rewrite trace_after_read.
    + rewrite Hreads, trace_after_read by exact Hwf.
      cbn [reads_of repeat]. now rewrite <- app_assoc.
    + intros Hdev H0 H1.
      assert (Hr : _readbuf (after_read self) = [xff; xff])
        by (rewrite readbuf_after_read by exact Hwf;
            now rewrite Hdev, H0, H1).
      rewrite Hr. cbn [repeat]. f_equal.
      apply Hquiet.
      * unfold after_read, i2c_readinto. cbn [i2c_device fst respond].
        exact Hdev.
      * rewrite trace_after_read by exact Hwf. exact H0.
      * rewrite trace_after_read by exact Hwf. exact H1.
Qed.

(** X18: the example program, cut after [n] turns of its loop, never
    raises.  It sends exactly one frame, [FF FF] (all pullups on), and then
    only reads, two bytes at a time, once per turn; [_writebuf] stays
    [FF FF].  Against the echoing chip, where no pin is pulled low, no turn
    reports a button. *)
Theorem read16inputs_runs (n : nat) (self : PCF8575) :
  wf self = true ->
  exists s' out,
    read16inputs n self = (s', Return out) /\
    length out = n /\
    transmitted s' = transmitted self ++ [[xff; xff]] /\
    _writebuf s' = [xff; xff] /\
    reads_of (trace (i2c_device s'))
    = reads_of (trace (i2c_device self)) ++ repeat 2%nat n /\
    (respond (i2c_device self) = loopback -> out = repeat [] n).
Proof.
  intros Hwf.
  destruct (poll_loop_spec n (after_write 0xFFFF self)
              (wf_after_write 0xFFFF self Hwf))
    as (s' & out & Hrun & Hlen & _ & Hbuf & Hsent & Hreads & Hquiet).
  exists s', out.
  split; [|split; [|split; [|split; [|split]]]].
  - unfold read16inputs, bind. rewrite write_gpio_eq by exact Hwf.
    exact Hrun.
  - exact Hlen.
  - rewrite Hsent. apply transmitted_after_write.
  - rewrite Hbuf. reflexivity.
  - rewrite Hreads. reflexivity.
  - intros Hdev. apply Hquiet; [exact Hdev | reflexivity | reflexivity].
Qed.

Lemma read16inputs_runs_witness :
  wf (PCF8575_init loopback PCF8575_I2CADDR_DEFAULT) = true /\
  exists s' out,
    read16inputs 3 (PCF8575_init loopback PCF8575_I2CADDR_DEFAULT)
    = (s', Return out) /\
    length out = 3%nat /\
    transmitted s'
    = transmitted (PCF8575_init loopback PCF8575_I2CADDR_DEFAULT)
      ++ [[xff; xff]].
Proof.
  split; [reflexivity|].
  destruct (read16inputs_runs 3
              (PCF8575_init loopback PCF8575_I2CADDR_DEFAULT) eq_refl)
    as (s' & out & H1 & H2 & H3 & _).
  exists s', out. repeat split; assumption.
Defined.
